(** * CarbonSense: the synthetic-data generator and the ESG aggregator

    A shallow embedding of [DataGenerator] and [ESGCalculator] of
    [src/app.py], and the properties of the specification that concern them.

    Conventions of the embedding.
    - A finite Python/numpy float is an exact rational ([Q]); sums and
      products are exact.  The result of a float division is an [fval], which
      keeps the IEEE-754 non-finite results ([NaN], the infinities) apart from
      the finite ones.  Signed zeros and overflow are not modelled.  Where a
      statement would depend on the rounding of binary64 additions, the
      additions are run on the primitive floats ([sum_b64]).
    - A timestamp is a naive datetime, counted in microseconds ([Z]).
    - A DataFrame is the list of its rows, in row order; a row is a record.
    - The ambient sources of randomness (numpy's global RandomState, Faker)
      are one abstract state threaded through the generator by a state monad;
      its primitive draws, and [np.sin], are parameters of the development. *)

From Stdlib Require Import Floats.
From Stdlib Require Import ZArith QArith Qround List String Ascii Bool Lia Lqa.
From Stdlib Require Import Sorting.Sorted Sorting.Permutation.
Import ListNotations.
Set Warnings "-inexact-float".
Open Scope string_scope.
Open Scope list_scope.
Open Scope Z_scope.
Open Scope Q_scope.

(** ** Numbers *)

(** The result of a float division. *)
Inductive fval : Type :=
| Fin (q : Q)
| PInf
| NInf
| NaN.

Definition is_finite (v : fval) : bool :=
  match v with Fin _ => true | _ => false end.

Definition Qis_zero (q : Q) : bool := Qeq_bool q 0.

(** [x / y] on float64 values (numpy scalars, pandas columns): no exception
    on a zero divisor, but a non-finite result. *)
Definition fdiv (x y : Q) : fval :=
  if Qis_zero y then
    match Qcompare x 0 with
    | Eq => NaN
    | Gt => PInf
    | Lt => NInf
    end
  else Fin (x / y).

(** Addition of two float values, non-finite ones included. *)
Definition fadd (a b : fval) : fval :=
  match a, b with
  | NaN, _ | _, NaN => NaN
  | PInf, NInf | NInf, PInf => NaN
  | PInf, _ | _, PInf => PInf
  | NInf, _ | _, NInf => NInf
  | Fin x, Fin y => Fin (x + y)
  end.

(** Rounding of a rational to the nearest integer, ties to even. *)
Definition round_half_even (q : Q) : Z :=
  let n := Qfloor q in
  match Qcompare (q - inject_Z n) (1 # 2) with
  | Lt => n
  | Gt => (n + 1)%Z
  | Eq => if Z.even n then n else (n + 1)%Z
  end.

(** Python's [round(x, 2)]. *)
Definition round2 (q : Q) : Q := round_half_even (q * 100) # 100.

(** [Series.sum()]: accumulation from zero in row order. *)
Definition Qsum (l : list Q) : Q := fold_left Qplus l 0.

(** [max(0, x)]. *)
Definition max0 (x : Q) : Q := if Qle_bool x 0 then 0 else x.

(** ** Timestamps *)

Definition Timestamp := Z.
Bind Scope Z_scope with Timestamp.

Definition us_per_minute : Z := 60000000.
Definition us_per_hour : Z := 3600000000.
Definition us_per_day : Z := 86400000000.

(** [timedelta(days=n)] *)
Definition timedelta_days (n : Z) : Z := (n * us_per_day)%Z.

(** [ts.hour] *)
Definition hour (ts : Timestamp) : Z := ((ts / us_per_hour) mod 24)%Z.

(** [ts.date()], as the number of the day. *)
Definition date (ts : Timestamp) : Z := (ts / us_per_day)%Z.

(** [pd.date_range(start, end, freq)]: [start], [start + freq], ... up to and
    including [end] when it is reached exactly. *)
Definition date_range (start stop freq : Z) : list Timestamp :=
  map (fun k => (start + Z.of_nat k * freq)%Z)
      (seq 0 (Z.to_nat ((stop - start) / freq + 1))).

(** ** The asset registry *)

Record AssetInfo : Type := mkAssetInfo {
  info_type : string;
  info_capacity : Z;
  info_location : string
}.

(** The dict [ASSETS], in insertion order. *)
Definition ASSETS : list (string * AssetInfo) :=
  [ ("Barmer Thermal", mkAssetInfo "thermal" 1320 "Rajasthan");
    ("Karnataka Solar", mkAssetInfo "solar" 500 "Karnataka");
    ("Maharashtra Wind", mkAssetInfo "wind" 300 "Maharashtra");
    ("Himachal Hydro", mkAssetInfo "hydro" 240 "Himachal Pradesh") ].

(** ** Tables *)

(** A row of [operational_data]. *)
Record Reading : Type := mkReading {
  timestamp : Timestamp;
  asset_name : string;
  asset_type : string;
  capacity : Z;
  generation_mw : Q;
  fuel_consumed_tonnes : Q;
  coal_calorific_value_kcal : Q;
  emissions_co2_tonnes : Q;
  water_withdrawal_cum : Q;
  operating_efficiency : Q
}.

Definition ReadingTable := list Reading.

(** A row of [esg_data]. *)
Record AuditRecord : Type := mkAuditRecord {
  data_point_id : string;
  audit_asset_name : string;
  metric_type : string;
  source_system : string;
  collection_timestamp : Timestamp;
  calculation_method : string;
  auditor_verified : bool;
  lineage_hash : string;
  last_modified_by : string
}.

Definition AuditTable := list AuditRecord.

(** ** The state monad of the random sources *)

Definition State (S A : Type) : Type := S -> A * S.

Definition ret {S A} (a : A) : State S A := fun s => (a, s).

Definition bind {S A B} (m : State S A) (k : A -> State S B) : State S B :=
  fun s => let (a, s') := m s in k a s'.

Notation "x <- m ;; k" := (bind m (fun x => k))
  (at level 61, m at next level, right associativity).

(** A [for] loop that appends one row per element. *)
Fixpoint for_each {S A B} (f : A -> State S B) (l : list A) : State S (list B) :=
  match l with
  | [] => ret []
  | x :: l' =>
      y <- f x ;;
      ys <- for_each f l' ;;
      ret (y :: ys)
  end.

(** A nested [for] loop: the rows of the inner loops, one after the other. *)
Fixpoint for_each_concat {S A B} (f : A -> State S (list B)) (l : list A)
  : State S (list B) :=
  match l with
  | [] => ret []
  | x :: l' =>
      ys <- f x ;;
      zs <- for_each_concat f l' ;;
      ret (ys ++ zs)
  end.

(** The library primitives the generator calls: the draws of numpy's global
    RandomState and of Faker, over the state [rs_state] that both of them
    hide, and numpy's sine. *)
Record Ambient : Type := mkAmbient {
  rs_state : Type;
  (** [np.random.random_sample()], a draw from [0, 1) *)
  random_sample : State rs_state Q;
  (** [np.random.standard_normal()] *)
  standard_normal : State rs_state Q;
  (** [np.random.randint(0, n)] *)
  randint : nat -> State rs_state nat;
  (** [fake.uuid4()], [fake.sha256()], [fake.email()] *)
  fake_uuid4 : State rs_state string;
  fake_sha256 : State rs_state string;
  fake_email : State rs_state string;
  (** [fake.date_time_this_month()]; the clock it reads is part of the
      hidden state *)
  fake_date_time_this_month : State rs_state Timestamp;
  (** [np.sin(h / 24 * 2 * np.pi)] for the hour [h] *)
  sin_hour : Z -> Q
}.

(** What numpy documents of [random_sample]: a draw lies in [0, 1). *)
Definition unit_samples (R : Ambient) : Prop :=
  forall s, 0 <= fst (random_sample R s) /\ fst (random_sample R s) < 1.

(** A sine lies between -1 and 1. *)
Definition sine_bounded (R : Ambient) : Prop :=
  forall h, -1 <= sin_hour R h /\ sin_hour R h <= 1.

(** ** Calls that may raise *)

Inductive exn : Type :=
| TypeError
| ZeroDivisionError.

Inductive outcome (A : Type) : Type :=
| Returned (a : A)
| Raised (e : exn).

Arguments Returned {A} a.
Arguments Raised {A} e.

(** ** The generator: [DataGenerator] *)

Section Generator.

Variable R : Ambient.

Local Abbreviation Rand := (State (rs_state R)).

(** [np.random.uniform(low, high)] *)
Definition uniform (low high : Q) : Rand Q :=
  u <- random_sample R ;;
  ret (low + (high - low) * u).

(** [np.random.normal(loc, scale)] *)
Definition normal (loc scale : Q) : Rand Q :=
  z <- standard_normal R ;;
  ret (loc + scale * z).

(** [np.random.choice(l)] *)
Definition choice {A} (default : A) (l : list A) : Rand A :=
  i <- randint R (List.length l) ;;
  ret (nth i l default).

(** [np.random.choice([True, False], p=[0.9, 0.1])]: the index of a draw
    from [0, 1) in the cumulated weights. *)
Definition choice_weighted (l : list bool) (p : list Q) : Rand bool :=
  u <- random_sample R ;;
  let cdf := tl (rev (fold_left (fun acc w => (hd 0 acc + w) :: acc) p [0])) in
  let idx := List.length (filter (fun c => Qle_bool c u) cdf) in
  ret (nth idx l false).

(** The body of the inner loop of [_generate_operational_data]: one row. *)
Definition generate_reading (name : string) (asset_info : AssetInfo)
  (ts : Timestamp) : Rand Reading :=
  let base_load := inject_Z (info_capacity asset_info) * 0.75 in
  generation <-
    (if String.eqb (info_type asset_info) "solar" then
       u <- uniform 0.9 1.1 ;;
       ret (base_load * max0 (-0.1 * (inject_Z (hour ts) - 12) ^ 2 + 1) * u)
     else if String.eqb (info_type asset_info) "wind" then
       u <- uniform 0.3 1.0 ;;
       ret (base_load * u * (1 + 0.1 * sin_hour R (hour ts)))
     else if String.eqb (info_type asset_info) "hydro" then
       u <- uniform 0.5 1.0 ;;
       ret (base_load * u)
     else
       u <- uniform 0.85 1.05 ;;
       ret (base_load * u)) ;;
  thermal <-
    (if String.eqb (info_type asset_info) "thermal" then
       z <- normal 0 50 ;;
       let heat_rate := 2500 + z in
       let fuel_consumed := generation * heat_rate / 1000 in
       d <- uniform (-100) 100 ;;
       ret (fuel_consumed, 3800 + d, fuel_consumed * 2.5)
     else ret (0, 0, 0)) ;;
  let '(fuel_consumed, coal_calorific_value, emissions_co2) := thermal in
  w <- uniform 50 150 ;;
  e <- uniform 85 95 ;;
  ret {| timestamp := ts;
         asset_name := name;
         asset_type := info_type asset_info;
         capacity := info_capacity asset_info;
         generation_mw := round2 generation;
         fuel_consumed_tonnes := round2 fuel_consumed;
         coal_calorific_value_kcal := coal_calorific_value;
         emissions_co2_tonnes := round2 emissions_co2;
         water_withdrawal_cum := round2 (w * generation / 1000);
         operating_efficiency := round2 e |}.

(** [_generate_operational_data], with the reading [now] of the clock. *)
Definition _generate_operational_data (now : Timestamp) : Rand ReadingTable :=
  let end_time := now in
  let start_time := (end_time - timedelta_days 7)%Z in
  for_each_concat
    (fun asset : string * AssetInfo =>
       let timestamps := date_range start_time end_time (15 * us_per_minute) in
       for_each (generate_reading (fst asset) (snd asset)) timestamps)
    ASSETS.

(** The body of the loop of [_generate_esg_metadata]: one row. *)
Definition generate_audit_record (_ : nat) : Rand AuditRecord :=
  id <- fake_uuid4 R ;;
  a <- choice "" (map fst ASSETS) ;;
  m <- choice "" ["emissions"; "water"; "safety"; "energy"] ;;
  t <- fake_date_time_this_month R ;;
  c <- choice "" ["GHG_Protocol"; "CPCB_Standards"; "ISO_14064"] ;;
  v <- choice_weighted [true; false] [0.9; 0.1] ;;
  h <- fake_sha256 R ;;
  e <- fake_email R ;;
  ret {| data_point_id := id;
         audit_asset_name := a;
         metric_type := m;
         source_system := "PI_System";
         collection_timestamp := t;
         calculation_method := c;
         auditor_verified := v;
         lineage_hash := h;
         last_modified_by := e |}.

(** [_generate_esg_metadata] *)
Definition _generate_esg_metadata : Rand AuditTable :=
  for_each generate_audit_record (seq 0 100).

(** [DataGenerator.__init__(self)]: both tables, the readings first. *)
Definition DataGenerator_init (now : Timestamp) : Rand (ReadingTable * AuditTable) :=
  operational_data <- _generate_operational_data now ;;
  esg_data <- _generate_esg_metadata ;;
  ret (operational_data, esg_data).

(** A call [DataGenerator(...)], with or without a [seed] argument: the
    signature of [__init__] has no parameter but [self], so an argument is
    refused before the body runs. *)
Definition DataGenerator_call (seed : option Z) (now : Timestamp)
  (s : rs_state R) : outcome (ReadingTable * AuditTable) :=
  match seed with
  | Some _ => Raised TypeError
  | None => Returned (fst (DataGenerator_init now s))
  end.

End Generator.

(** A small concrete ambient for running the generator: the state is a
    counter, the draws cycle through tenths, the sine through a coarse
    table. *)
Definition toy_tick {A} (f : nat -> A) : State nat A := fun n => (f n, S n).

Definition toy_sin (h : Z) : Q :=
  nth (Z.to_nat h)
      [0; 0.26; 0.5; 0.71; 0.87; 0.97; 1; 0.97; 0.87; 0.71; 0.5; 0.26;
       0; -0.26; -0.5; -0.71; -0.87; -0.97; -1; -0.97; -0.87; -0.71; -0.5; -0.26]
      0.

Definition toy : Ambient :=
  {| rs_state := nat;
     random_sample := toy_tick (fun n => Z.of_nat (n mod 10) # 10);
     standard_normal := toy_tick (fun n => inject_Z (Z.of_nat (n mod 7)) - 3);
     randint := fun k => toy_tick (fun n => (n mod k)%nat);
     fake_uuid4 := toy_tick (fun _ => "00000000-0000-4000-8000-000000000000");
     fake_sha256 := toy_tick (fun _ => "e3b0c44298fc1c14");
     fake_email := toy_tick (fun _ => "auditor@example.org");
     fake_date_time_this_month := toy_tick (fun n => Z.of_nat n);
     sin_hour := toy_sin |}.

(** 2024-01-08 10:07:30.250000 *)
Definition now0 : Timestamp := 1704708450250000%Z.

(** ** Grouping: [DataFrame.groupby(keys)] *)

(** The keys of a [groupby] are compared to sort the groups. *)
Class KeyOrder (K : Type) : Type := cmp : K -> K -> comparison.

#[export] Instance Z_KeyOrder : KeyOrder Z := Z.compare.

(** Python compares strings by code point. *)
#[export] Instance string_KeyOrder : KeyOrder string := String.compare.

(** A key of several columns is compared column by column. *)
#[export] Instance pair_KeyOrder {A B} `{KeyOrder A} `{KeyOrder B} : KeyOrder (A * B) :=
  fun x y =>
    match cmp (fst x) (fst y) with
    | Eq => cmp (snd x) (snd y)
    | c => c
    end.

Definition key_eqb {K} `{KeyOrder K} (a b : K) : bool :=
  match cmp a b with Eq => true | _ => false end.

Section GroupBy.

Context {K : Type} `{KeyOrder K} {Row : Type}.

(** Insertion of a key in an ascending list of distinct keys. *)
Fixpoint insert_key (k : K) (l : list K) : list K :=
  match l with
  | [] => [k]
  | x :: l' =>
      match cmp k x with
      | Lt => k :: l
      | Eq => l
      | Gt => x :: insert_key k l'
      end
  end.

(** The distinct keys of a column, ascending ([sort=True], the default). *)
Definition group_keys (keys : list K) : list K := fold_right insert_key [] keys.

(** The rows of one group, in the order of the table. *)
Definition group_rows (key : Row -> K) (rows : list Row) (k : K) : list Row :=
  filter (fun r => key_eqb (key r) k) rows.

(** [rows.groupby(key)]: the groups by ascending key, each with its rows. *)
Definition groupby (key : Row -> K) (rows : list Row) : list (K * list Row) :=
  map (fun k => (k, group_rows key rows k)) (group_keys (map key rows)).

End GroupBy.

(** ** The aggregator: [ESGCalculator] *)

(** A row of the result of [calculate_scope1_emissions]; [reset_index] makes
    the date a column. *)
Record Scope1Row : Type := mkScope1Row {
  s1_date : Z;
  s1_generation_mw : Q;
  s1_fuel_consumed_tonnes : Q;
  s1_emissions_co2_tonnes : Q
}.

(** A row of the result of [calculate_water_intensity]. *)
Record WaterRow : Type := mkWaterRow {
  w_date : Z;
  w_asset_name : string;
  w_generation_mw : Q;
  w_water_withdrawal_cum : Q;
  water_intensity : fval
}.

(** The one row of the result of [generate_brsr_report]. *)
Record BRSR : Type := mkBRSR {
  Reporting_Period : string;
  Scope1_Emissions_Total_tCO2e : Q;
  Energy_Generation_Total_MWh : Q;
  Emission_Intensity_kgCO2_per_MWh : fval;
  Water_withdrawal_Total_m3 : Q;
  Water_Intensity_m3_per_MWh : fval;
  Renewable_Energy_Percentage : Q;
  Data_Quality_Score : Q
}.

(** The truth value of a string in [if asset_name:]. *)
Definition truthy (s : string) : bool :=
  match s with EmptyString => false | _ => true end.

Definition is_thermal (r : Reading) : bool := String.eqb (asset_type r) "thermal".

(** [df[df['asset_name'] == asset_name]] when the argument is given and not
    empty, [df] otherwise. *)
Definition select_asset (df : ReadingTable) (name : option string) : ReadingTable :=
  match name with
  | Some n =>
      if truthy n then filter (fun r => String.eqb (asset_name r) n) df else df
  | None => df
  end.

(** [thermal_df] of [calculate_scope1_emissions] *)
Definition thermal_rows (df : ReadingTable) (name : option string) : ReadingTable :=
  filter is_thermal (select_asset df name).

Definition reading_date (r : Reading) : Z := date (timestamp r).

(** [calculate_scope1_emissions(asset_name=None)] *)
Definition calculate_scope1_emissions (operational_data : ReadingTable)
  (name : option string) : list Scope1Row :=
  let thermal_df := thermal_rows operational_data name in
  map (fun g : Z * list Reading =>
         {| s1_date := fst g;
            s1_generation_mw := Qsum (map generation_mw (snd g));
            s1_fuel_consumed_tonnes := Qsum (map fuel_consumed_tonnes (snd g));
            s1_emissions_co2_tonnes := Qsum (map emissions_co2_tonnes (snd g)) |})
      (groupby reading_date thermal_df).

Definition date_asset (r : Reading) : Z * string := (reading_date r, asset_name r).

(** [calculate_water_intensity()] *)
Definition calculate_water_intensity (operational_data : ReadingTable)
  : list WaterRow :=
  map (fun g : (Z * string) * list Reading =>
         let generation := Qsum (map generation_mw (snd g)) in
         let water := Qsum (map water_withdrawal_cum (snd g)) in
         {| w_date := fst (fst g);
            w_asset_name := snd (fst g);
            w_generation_mw := generation;
            w_water_withdrawal_cum := water;
            water_intensity := fdiv water generation |})
      (groupby date_asset operational_data).

Definition is_nan (v : fval) : bool :=
  match v with NaN => true | _ => false end.

(** A float value divided by a positive count. *)
Definition fdiv_count (v : fval) (n : nat) : fval :=
  match v with
  | Fin q => Fin (q / inject_Z (Z.of_nat n))
  | other => other
  end.

(** [Series.mean()]: the NaN entries are skipped; NaN when nothing is left. *)
Definition fmean (l : list fval) : fval :=
  let vals := filter (fun v => negb (is_nan v)) l in
  match vals with
  | [] => NaN
  | _ => fdiv_count (fold_left fadd vals (Fin 0)) (List.length vals)
  end.

(** [s.str.contains(pat)] for a pattern without metacharacters. *)
Definition contains (pat s : string) : bool :=
  match String.index 0 pat s with Some _ => true | None => false end.

(** [water['asset_name'].str.contains('Solar|Wind|Hydro')] *)
Definition is_renewable_name (s : string) : bool :=
  contains "Solar" s || contains "Wind" s || contains "Hydro" s.

Section Report.

Variable R : Ambient.

(** [generate_brsr_report(reporting_period)].  The entries of [brsr_data]
    are evaluated in order: the quotient of the two [len], on Python
    integers, raises on an empty [water] before the score is drawn. *)
Definition generate_brsr_report (operational_data : ReadingTable)
  (reporting_period : string) : State (rs_state R) (outcome BRSR) :=
  let scope1 := calculate_scope1_emissions operational_data None in
  let water := calculate_water_intensity operational_data in
  let emissions := Qsum (map s1_emissions_co2_tonnes scope1) in
  let generation := Qsum (map s1_generation_mw scope1) in
  let renewable := filter (fun w => is_renewable_name (w_asset_name w)) water in
  match water with
  | [] => ret (Raised ZeroDivisionError)
  | _ =>
      score <- uniform R 95 100 ;;
      ret (Returned
             {| Reporting_Period := reporting_period;
                Scope1_Emissions_Total_tCO2e := emissions;
                Energy_Generation_Total_MWh := generation;
                Emission_Intensity_kgCO2_per_MWh := fdiv (emissions * 1000) generation;
                Water_withdrawal_Total_m3 := Qsum (map w_water_withdrawal_cum water);
                Water_Intensity_m3_per_MWh := fmean (map water_intensity water);
                Renewable_Energy_Percentage :=
                  inject_Z (Z.of_nat (List.length renewable))
                  / inject_Z (Z.of_nat (List.length water)) * 100;
                Data_Quality_Score := score |})
  end.

End Report.

(** ** A small table

    Two thermal readings on one day and one on the next, a solar reading at
    night (no generation, no water) and a wind reading. *)

Definition day0 : Timestamp := (19723 * us_per_day)%Z.

Definition sample_table : ReadingTable :=
  [ mkReading (day0 + 10 * us_per_hour)%Z "Barmer Thermal" "thermal" 1320
      900 2250 3800 5625 90 90;
    mkReading (day0 + 1 * us_per_hour)%Z "Karnataka Solar" "solar" 500
      0 0 0 0 0 88;
    mkReading (day0 + 10 * us_per_hour + 15 * us_per_minute)%Z "Barmer Thermal"
      "thermal" 1320 950.5 2376.25 3750 5940.63 100.25 91;
    mkReading (day0 + us_per_day + 2 * us_per_hour)%Z "Barmer Thermal" "thermal"
      1320 1000 2500 3850 6250 120 92;
    mkReading (day0 + 3 * us_per_hour)%Z "Maharashtra Wind" "wind" 300
      150 0 0 0 12 87 ].

(** Equality of (date, asset name) pairs is decidable. *)
Definition date_asset_eq_dec (a b : Z * string) : {a = b} + {a <> b}.
Proof. decide equality; [apply string_dec | apply Z.eq_dec]. Defined.

(** The rows of the (date, asset name) bucket of the row [r]. *)
Definition same_bucket (r x : Reading) : bool :=
  Z.eqb (date (timestamp x)) (date (timestamp r))
  && String.eqb (asset_name x) (asset_name r).

(** A report with another score. *)
Definition with_score (q : Q) (b : BRSR) : BRSR :=
  {| Reporting_Period := Reporting_Period b;
     Scope1_Emissions_Total_tCO2e := Scope1_Emissions_Total_tCO2e b;
     Energy_Generation_Total_MWh := Energy_Generation_Total_MWh b;
     Emission_Intensity_kgCO2_per_MWh := Emission_Intensity_kgCO2_per_MWh b;
     Water_withdrawal_Total_m3 := Water_withdrawal_Total_m3 b;
     Water_Intensity_m3_per_MWh := Water_Intensity_m3_per_MWh b;
     Renewable_Energy_Percentage := Renewable_Energy_Percentage b;
     Data_Quality_Score := q |}.

(** Two calls in a row: the second starts from the state the first left. *)
Definition call_twice {S A} (m : State S A) (s : S) : A * A :=
  let (a, s1) := m s in
  let (b, _) := m s1 in
  (a, b).

(** The score of a report that was returned. *)
Definition score_of (o : outcome BRSR) : option Q :=
  match o with
  | Returned b => Some (Data_Quality_Score b)
  | Raised _ => None
  end.

(** The first generation value of the readings that were returned. *)
Definition first_generation (o : outcome (ReadingTable * AuditTable)) : option Q :=
  match o with
  | Returned (r :: _, _) => Some (generation_mw r)
  | _ => None
  end.

(** ** The audit trail: [AuditTrail] *)

(** What numpy documents of [randint(0, n)]: the draw is below [n]. *)
Definition randint_in_range (R : Ambient) : Prop :=
  forall n s, (0 < n)%nat -> (fst (randint R n s) < n)%nat.

(** [get_lineage(data_point_id)]: the rows of the metadata with that
    identifier. *)
Definition get_lineage (metadata : AuditTable) (id : string) : AuditTable :=
  filter (fun a => String.eqb (data_point_id a) id) metadata.

(** [Series.unique()]: the distinct values, in the order they first appear. *)
Fixpoint unique (l : list string) : list string :=
  match l with
  | [] => []
  | x :: l' => x :: filter (fun y => negb (String.eqb y x)) (unique l')
  end.

(** The number of entries of a column equal to [v]. *)
Definition count_of (v : string) (l : list string) : nat :=
  List.length (filter (String.eqb v) l).

(** Insertion by descending count, behind the entries that count as much. *)
Fixpoint insert_by_count (e : string * nat) (l : list (string * nat))
  : list (string * nat) :=
  match l with
  | [] => [e]
  | x :: l' =>
      if (snd x <? snd e)%nat then e :: l else x :: insert_by_count e l'
  end.

(** [Series.value_counts().to_dict()]: every distinct value with the number
    of its entries, most frequent first.  pandas promises no order among
    values that count the same; here they keep the order of first
    appearance. *)
Definition value_counts (l : list string) : list (string * nat) :=
  fold_left (fun acc v => insert_by_count (v, count_of v l) acc) (unique l) [].

(** [Series.sum()] of a column of booleans. *)
Definition count_true (l : list bool) : nat := List.length (filter id l).

(** [Series.mean()] of a column of booleans. *)
Definition bool_mean (l : list bool) : fval :=
  match l with
  | [] => NaN
  | _ => Fin (inject_Z (Z.of_nat (count_true l)) / inject_Z (Z.of_nat (List.length l)))
  end.

(** A float value times a finite factor that is not zero. *)
Definition fscale (v : fval) (k : Q) : fval :=
  match v with
  | Fin q => Fin (q * k)
  | other => other
  end.

(** The dict that [generate_audit_packet] returns. *)
Record AuditPacket : Type := mkAuditPacket {
  audit_timestamp : string;
  total_data_points : nat;
  auditor_verified_percentage : fval;
  source_systems : list (string * nat);
  compliance_standards : list string;
  lineage_integrity : string;
  anomalies_detected : Z
}.

Section Packet.

(** [datetime.isoformat] *)
Variable isoformat : Timestamp -> string.

(** [generate_audit_packet()], with the reading [now] of the clock. *)
Definition generate_audit_packet (metadata : AuditTable) (now : Timestamp)
  : AuditPacket :=
  {| audit_timestamp := isoformat now;
     total_data_points := List.length metadata;
     auditor_verified_percentage :=
       fscale (bool_mean (map auditor_verified metadata)) 100;
     source_systems := value_counts (map source_system metadata);
     compliance_standards := unique (map calculation_method metadata);
     lineage_integrity := "SHA256_VERIFIED";
     anomalies_detected :=
       (Z.of_nat (List.length metadata)
        - Z.of_nat (count_true (map auditor_verified metadata)))%Z |}.

End Packet.

(** ** Float arithmetic with non-finite values *)

Definition fneg (a : fval) : fval :=
  match a with
  | Fin x => Fin (- x)
  | PInf => NInf
  | NInf => PInf
  | NaN => NaN
  end.

Definition fsub (a b : fval) : fval := fadd a (fneg b).

(** An infinity of the sign of [x], taken as positive at zero. *)
Definition inf_of_sign (pos : bool) (x : Q) : fval :=
  if Qle_bool 0 x then (if pos then PInf else NInf)
  else (if pos then NInf else PInf).

(** [a / b] on float64 values, non-finite ones included. *)
Definition fdivv (a b : fval) : fval :=
  match a, b with
  | NaN, _ | _, NaN => NaN
  | Fin x, Fin y => fdiv x y
  | Fin _, (PInf | NInf) => Fin 0
  | (PInf | NInf), (PInf | NInf) => NaN
  | PInf, Fin y => inf_of_sign true y
  | NInf, Fin y => inf_of_sign false y
  end.

(** ** The pages of [create_dashboard]: what they compute before they draw *)

(** "Live ESG Command Center": the quotient of the "Emission Intensity"
    card, [(total_emissions*1000)/total_gen]. *)
Definition command_center_emission_intensity (operational_data : ReadingTable)
  : fval :=
  let scope1_data := calculate_scope1_emissions operational_data None in
  let total_emissions := Qsum (map s1_emissions_co2_tonnes scope1_data) in
  let total_gen := Qsum (map generation_mw operational_data) in
  fdiv (total_emissions * 1000) total_gen.

(** The last row of a group. *)
Definition last_row (rows : list Reading) : list Reading :=
  match rev rows with
  | r :: _ => [r]
  | [] => []
  end.

(** "Live Asset Performance":
    [operational_data.groupby('asset_name').last().reset_index()]. *)
Definition latest_data (operational_data : ReadingTable) : list Reading :=
  flat_map (fun g : string * list Reading => last_row (snd g))
           (groupby asset_name operational_data).

(** "Data Audit Trail":
    [esg_data[~esg_data['auditor_verified']].head(10)]. *)
Definition anomalies (esg_data : AuditTable) : AuditTable :=
  firstn 10 (filter (fun a => negb (auditor_verified a)) esg_data).

(** "Decarbonization Simulator": the variables of the block under
    "Run Simulation", from the two sliders and the price. *)
Record Simulation : Type := mkSimulation {
  baseline_emissions : Q;
  baseline_intensity : fval;
  emissions_reduced : Q;
  new_re_gen : Q;
  new_intensity : fval;
  carbon_credit_value : Q
}.

Definition run_simulation (operational_data : ReadingTable)
  (biomass_perc re_expansion carbon_price : Z) : Simulation :=
  let scope1 := calculate_scope1_emissions operational_data None in
  let baseline_emissions := Qsum (map s1_emissions_co2_tonnes scope1) in
  let baseline_intensity :=
    fdiv baseline_emissions (Qsum (map s1_generation_mw scope1)) in
  let emissions_reduced :=
    baseline_emissions * (inject_Z biomass_perc / 100) * 0.7 in
  let new_re_gen := inject_Z re_expansion * 8760 * 0.25 in
  let new_intensity :=
    fdivv (Fin (baseline_emissions - emissions_reduced))
          (fadd (fdivv (Fin baseline_emissions) baseline_intensity)
                (Fin new_re_gen)) in
  {| baseline_emissions := baseline_emissions;
     baseline_intensity := baseline_intensity;
     emissions_reduced := emissions_reduced;
     new_re_gen := new_re_gen;
     new_intensity := new_intensity;
     carbon_credit_value := emissions_reduced * inject_Z carbon_price |}.

(** "Asset Performance": the quotient of the "Capacity Utilization" card,
    [asset_data['generation_mw'].mean() / ASSETS[selected_asset]['capacity']
    * 100]; [None] stands for the KeyError of a name that is not in the
    registry. *)
Definition capacity_utilization (operational_data : ReadingTable)
  (selected_asset : string) : option fval :=
  let asset_data :=
    filter (fun r => String.eqb (asset_name r) selected_asset) operational_data in
  let mean :=
    fdiv (Qsum (map generation_mw asset_data))
         (inject_Z (Z.of_nat (List.length asset_data))) in
  match find (fun a => String.eqb (fst a) selected_asset) ASSETS with
  | Some a =>
      Some (fscale (fdivv mean (Fin (inject_Z (info_capacity (snd a))))) 100)
  | None => None
  end.

(** ** Sums in binary64 *)



(** ** The rows behind a sum *)


(** ** Calls of the aggregator, one after the other *)

(** A call of one of the three methods of [ESGCalculator]. *)
Inductive method : Type :=
| call_scope1 (name : option string)
| call_water
| call_report (reporting_period : string).

(** What a call gives back. *)
Inductive method_result : Type :=
| scope1_result (rows : list Scope1Row)
| water_result (rows : list WaterRow)
| report_result (o : outcome BRSR).

(** A call on the table [t], in the state of the random sources it finds. *)
Definition call_method (R : Ambient) (t : ReadingTable) (m : method)
  : State (rs_state R) method_result :=
  match m with
  | call_scope1 name => ret (scope1_result (calculate_scope1_emissions t name))
  | call_water => ret (water_result (calculate_water_intensity t))
  | call_report reporting_period =>
      o <- generate_brsr_report R t reporting_period ;;
      ret (report_result o)
  end.

(** * Properties *)

(** ** The model at work *)

Example round2_rounds_ties_to_even :
  round2 0.005 == 0 /\ round2 0.015 == 0.02 /\ round2 841.4999 == 841.5.
Proof. repeat split; reflexivity. Qed.

Example date_range_is_inclusive :
  date_range 0 (2 * us_per_hour) (45 * us_per_minute)
  = [0; 2700000000; 5400000000]%Z.
Proof. reflexivity. Qed.

Example scope1_of_sample_table :
  map s1_date (calculate_scope1_emissions sample_table None) = [19723; 19724]%Z /\
  Forall2 Qeq
    (map s1_emissions_co2_tonnes (calculate_scope1_emissions sample_table None))
    [11565.63; 6250].
Proof. split; [reflexivity |]. repeat constructor. Qed.

Example water_intensity_of_sample_table :
  map (fun w => (w_date w, w_asset_name w, is_finite (water_intensity w)))
      (calculate_water_intensity sample_table)
  = [ (19723%Z, "Barmer Thermal", true);
      (19723%Z, "Karnataka Solar", false);
      (19723%Z, "Maharashtra Wind", true);
      (19724%Z, "Barmer Thermal", true) ].
Proof. reflexivity. Qed.

Example first_generated_row :
  let r := hd (mkReading 0 "" "" 0 0 0 0 0 0 0)
              (fst (_generate_operational_data toy now0 0%nat)) in
  asset_name r = "Barmer Thermal" /\
  timestamp r = (now0 - 7 * us_per_day)%Z /\
  generation_mw r == 841.5.
Proof. vm_compute. repeat split; reflexivity. Qed.

(** ** Rounding *)

Lemma round_half_even_floor (q : Q) :
  round_half_even q = Qfloor q \/ round_half_even q = (Qfloor q + 1)%Z.
Proof.
  unfold round_half_even.
  destruct (Qcompare (q - inject_Z (Qfloor q)) (1 # 2)); auto.
  destruct (Z.even (Qfloor q)); auto.
Qed.

Lemma round_half_even_ge (z : Z) (q : Q) :
  inject_Z z <= q -> (z <= round_half_even q)%Z.
Proof.
  intros Hq.
  assert (Hf : (z <= Qfloor q)%Z).
  { rewrite <- (Qfloor_Z z). now apply Qfloor_resp_le. }
  destruct (round_half_even_floor q) as [-> | ->]; lia.
Qed.

Lemma round_half_even_le (z : Z) (q : Q) :
  q <= inject_Z z -> (round_half_even q <= z)%Z.
Proof.
  intros Hq.
  assert (Hf : (Qfloor q <= z)%Z).
  { rewrite <- (Qfloor_Z z). now apply Qfloor_resp_le. }
  destruct (Z.eq_dec (Qfloor q) z) as [He | Hne].
  - unfold round_half_even. rewrite He.
    destruct (Qcompare_spec (q - inject_Z z) (1 # 2)) as [H | H | H];
      try lia; exfalso; lra.
  - destruct (round_half_even_floor q) as [-> | ->]; lia.
Qed.

Lemma Qmake_100_le_l (z : Z) (q : Q) : z # 100 <= q <-> inject_Z z <= q * 100.
Proof. destruct q as [n d]. unfold Qle; simpl. lia. Qed.

Lemma Qmake_100_le_r (z : Z) (q : Q) : q <= z # 100 <-> q * 100 <= inject_Z z.
Proof. destruct q as [n d]. unfold Qle; simpl. lia. Qed.

Lemma round2_ge (z : Z) (q : Q) : z # 100 <= q -> z # 100 <= round2 q.
Proof.
  intros Hq. unfold round2, Qle; simpl.
  apply Z.mul_le_mono_nonneg_r; [lia |].
  apply round_half_even_ge. now apply Qmake_100_le_l.
Qed.

Lemma round2_le (z : Z) (q : Q) : q <= z # 100 -> round2 q <= z # 100.
Proof.
  intros Hq. unfold round2, Qle; simpl.
  apply Z.mul_le_mono_nonneg_r; [lia |].
  apply round_half_even_le. now apply Qmake_100_le_r.
Qed.

Lemma round2_0 : round2 0 == 0.
Proof. reflexivity. Qed.

Lemma max0_nonneg (x : Q) : 0 <= max0 x.
Proof.
  unfold max0. destruct (Qle_bool x 0) eqn:E; [lra |].
  destruct (Qlt_le_dec 0 x) as [H | H]; [lra |].
  apply Qle_bool_iff in H. congruence.
Qed.

Lemma max0_le (x b : Q) : 0 <= b -> x <= b -> max0 x <= b.
Proof. intros Hb Hx. unfold max0. destruct (Qle_bool x 0); lra. Qed.

(** ** Loops in the state monad *)

Lemma for_each_Forall {S A B} (P : B -> Prop) (f : A -> State S B) (l : list A) :
  (forall x, In x l -> forall s, P (fst (f x s))) ->
  forall s, Forall P (fst (for_each f l s)).
Proof.
  induction l as [| a l IH]; intros Hf s; simpl.
  - constructor.
  - unfold bind, ret.
    pose proof (Hf a (or_introl eq_refl) s) as Ha.
    destruct (f a s) as [y s1]. 
    assert (IHl : Forall P (fst (for_each f l s1))).
    { apply IH. intros x Hx. apply Hf. now right. }
    destruct (for_each f l s1) as [ys s2]. simpl in *. now constructor.
Qed.

Lemma for_each_concat_Forall {S A B} (P : B -> Prop) (f : A -> State S (list B))
  (l : list A) :
  (forall x, In x l -> forall s, Forall P (fst (f x s))) ->
  forall s, Forall P (fst (for_each_concat f l s)).
Proof.
  induction l as [| a l IH]; intros Hf s; simpl.
  - constructor.
  - unfold bind, ret.
    pose proof (Hf a (or_introl eq_refl) s) as Ha.
    destruct (f a s) as [ys s1].
    assert (IHl : Forall P (fst (for_each_concat f l s1))).
    { apply IH. intros x Hx. apply Hf. now right. }
    destruct (for_each_concat f l s1) as [zs s2]. simpl in *.
    apply Forall_app. now split.
Qed.

Lemma for_each_length {S A B} (f : A -> State S B) (l : list A) (s : S) :
  List.length (fst (for_each f l s)) = List.length l.
Proof.
  revert s. induction l as [| a l IH]; intros s; simpl; [reflexivity |].
  unfold bind, ret. destruct (f a s) as [y s1].
  specialize (IH s1). destruct (for_each f l s1) as [ys s2].
  simpl in *. now rewrite IH.
Qed.

(** Every row of the generated table satisfies what every row of every
    asset of the registry satisfies. *)
Lemma operational_data_Forall (R : Ambient) (P : Reading -> Prop) :
  (forall asset ts s, In asset ASSETS ->
     P (fst (generate_reading R (fst asset) (snd asset) ts s))) ->
  forall now s, Forall P (fst (_generate_operational_data R now s)).
Proof.
  intros H now s. unfold _generate_operational_data.
  apply for_each_concat_Forall. intros asset Hin s1.
  apply for_each_Forall. intros ts _ s2. now apply H.
Qed.

(** Runs one row: every test is decided and every draw becomes a variable. *)
Ltac run_reading R :=
  unfold generate_reading, uniform, normal, bind, ret;
  repeat (cbv beta;
          match goal with
          | |- context [if ?b then _ else _] => destruct b eqn:?
          | |- context [random_sample R ?s] =>
              let u := fresh "u" in
              let s' := fresh "s" in
              let E := fresh "Hu" in
              destruct (random_sample R s) as [u s'] eqn:E
          | |- context [standard_normal R ?s] =>
              let z := fresh "z" in
              let s' := fresh "s" in
              destruct (standard_normal R s) as [z s']
          end);
  cbn [fst snd timestamp asset_name asset_type capacity generation_mw
       fuel_consumed_tonnes coal_calorific_value_kcal emissions_co2_tonnes
       water_withdrawal_cum operating_efficiency].

(** ** The generator *)

(** C1. In every row of the table the generator produces, for every asset
    and every timestamp of the window, whatever the draws: when the asset
    type is not thermal, the fuel consumed, the calorific value and the CO2
    emissions are zero. *)
Theorem non_thermal_rows_carry_zero (R : Ambient) (now : Timestamp)
  (s : rs_state R) :
  Forall (fun r =>
            asset_type r <> "thermal" ->
            fuel_consumed_tonnes r == 0 /\
            coal_calorific_value_kcal r == 0 /\
            emissions_co2_tonnes r == 0)
         (fst (_generate_operational_data R now s)).
Proof.
  apply operational_data_Forall. intros [name info] ts s0 _.
  cbn [fst snd]. run_reading R; intros Hne;
    try (repeat split; reflexivity).
  all: exfalso; apply Hne; now apply String.eqb_eq.
Qed.

Lemma round2_between (lo hi : Z) (q a b : Q) :
  a <= lo # 100 -> hi # 100 <= b -> lo # 100 <= q -> q <= hi # 100 ->
  a <= round2 q /\ round2 q <= b.
Proof.
  intros Ha Hb Hlo Hhi. split.
  - apply Qle_trans with (lo # 100); [assumption | now apply round2_ge].
  - apply Qle_trans with (hi # 100); [now apply round2_le | assumption].
Qed.

Lemma solar_shape_range (h : Z) :
  0 <= max0 (-0.1 * (inject_Z h - 12) ^ 2 + 1) /\
  max0 (-0.1 * (inject_Z h - 12) ^ 2 + 1) <= 1.
Proof.
  split; [apply max0_nonneg |].
  apply max0_le; [lra |].
  assert (H : 0 <= (inject_Z h - 12) ^ 2).
  { simpl. generalize (inject_Z h - 12). intros x. nra. }
  lra.
Qed.

(** Decides the tests on the asset type of a registry entry. *)
Ltac decide_types :=
  cbn [fst snd info_type info_capacity];
  repeat match goal with
         | |- context [String.eqb ?a ?b] =>
             let v := eval vm_compute in (String.eqb a b) in
             change (String.eqb a b) with v
         end;
  cbv iota.

(** The bounds on the draws of a row, from the bound on each sample. *)
Ltac sample_bounds HR :=
  repeat match goal with
         | Hu : random_sample _ ?s = (?u, _) |- _ =>
             let H := fresh "Hrange" in
             pose proof (HR s) as H; rewrite Hu in H; cbn [fst] in H;
             clear Hu
         end.

(** C8. In every row of the generated table, whatever the draws (a sample
    lies in [0, 1), a sine in [-1, 1]) and whichever of the four asset
    types: the generation is at least 0 and at most 1.2 times the rated
    capacity of the asset. *)
Theorem generation_within_capacity (R : Ambient) (now : Timestamp)
  (s : rs_state R) :
  unit_samples R -> sine_bounded R ->
  Forall (fun r =>
            0 <= generation_mw r /\
            generation_mw r <= 1.2 * inject_Z (capacity r))
         (fst (_generate_operational_data R now s)).
Proof.
  intros HR Hsin. apply operational_data_Forall. intros asset ts s0 Hin.
  pose proof (solar_shape_range (hour ts)) as Hshape.
  pose proof (Hsin (hour ts)) as Hsine.
  unfold ASSETS in Hin. simpl in Hin.
  destruct Hin as [<- | [<- | [<- | [<- | []]]]];
    unfold generate_reading; decide_types; run_reading R; sample_bounds HR;
    unfold inject_Z in *.
  - apply (round2_between 0 158400); nra.
  - apply (round2_between 0 60000); nra.
  - apply (round2_between 0 36000); nra.
  - apply (round2_between 0 28800); nra.
Qed.

(** ** Sums *)

Lemma fold_left_Qplus (l : list Q) (a : Q) :
  fold_left Qplus l a == a + fold_left Qplus l 0.
Proof.
  revert a. induction l as [| x l IH]; intros a; simpl.
  - lra.
  - rewrite (IH (a + x)), (IH (0 + x)). lra.
Qed.

Lemma Qsum_nil : Qsum [] == 0.
Proof. reflexivity. Qed.

Lemma Qsum_cons (x : Q) (l : list Q) : Qsum (x :: l) == x + Qsum l.
Proof. unfold Qsum. simpl. rewrite fold_left_Qplus. lra. Qed.

Lemma Qsum_app (l1 l2 : list Q) : Qsum (l1 ++ l2) == Qsum l1 + Qsum l2.
Proof.
  induction l1 as [| x l1 IH]; simpl.
  - rewrite Qsum_nil. lra.
  - rewrite !Qsum_cons, IH. lra.
Qed.

Lemma Qsum_pos (l : list Q) :
  l <> [] -> Forall (fun x => 0 < x) l -> 0 < Qsum l.
Proof.
  intros Hne Hall. destruct l as [| x l]; [congruence |]. clear Hne.
  revert x Hall. induction l as [| y l IH]; intros x Hall.
  - inversion Hall; subst. rewrite Qsum_cons, Qsum_nil. lra.
  - inversion Hall; subst. rewrite Qsum_cons.
    specialize (IH y H2). lra.
Qed.

(** ** The order of the keys *)

Class KeyOrderLaws (K : Type) `{KeyOrder K} : Prop := {
  cmp_eq : forall a b : K, cmp a b = Eq <-> a = b;
  cmp_antisym : forall a b : K, cmp b a = CompOpp (cmp a b);
  cmp_lt_trans : forall a b c : K, cmp a b = Lt -> cmp b c = Lt -> cmp a c = Lt
}.

#[export] Instance Z_KeyOrderLaws : KeyOrderLaws Z.
Proof.
  split; unfold cmp, Z_KeyOrder.
  - apply Z.compare_eq_iff.
  - intros a b. apply Z.compare_antisym.
  - intros a b c. rewrite !Z.compare_lt_iff. lia.
Qed.

Lemma ascii_compare_refl (a : ascii) : Ascii.compare a a = Eq.
Proof. unfold Ascii.compare. apply N.compare_refl. Qed.

Lemma ascii_compare_lt_trans (a b c : ascii) :
  Ascii.compare a b = Lt -> Ascii.compare b c = Lt -> Ascii.compare a c = Lt.
Proof. unfold Ascii.compare. rewrite !N.compare_lt_iff. lia. Qed.

Lemma string_compare_refl (s : string) : String.compare s s = Eq.
Proof.
  induction s as [| a s IH]; simpl; [reflexivity |].
  now rewrite ascii_compare_refl.
Qed.

Lemma string_compare_lt_trans (s t u : string) :
  String.compare s t = Lt -> String.compare t u = Lt -> String.compare s u = Lt.
Proof.
  revert t u. induction s as [| a s IH]; intros [| b t] [| c u]; simpl;
    try congruence.
  destruct (Ascii.compare a b) eqn:Eab; try discriminate;
    destruct (Ascii.compare b c) eqn:Ebc; try discriminate; intros Hst Htu.
  - apply Ascii.compare_eq_iff in Eab, Ebc. subst.
    rewrite ascii_compare_refl. eauto.
  - apply Ascii.compare_eq_iff in Eab. subst. now rewrite Ebc.
  - apply Ascii.compare_eq_iff in Ebc. subst. now rewrite Eab.
  - now rewrite (ascii_compare_lt_trans a b c).
Qed.

#[export] Instance string_KeyOrderLaws : KeyOrderLaws string.
Proof.
  split; unfold cmp, string_KeyOrder.
  - intros a b. split.
    + apply String.compare_eq_iff.
    + intros ->. apply string_compare_refl.
  - intros a b. apply String.compare_antisym.
  - apply string_compare_lt_trans.
Qed.

#[export] Instance pair_KeyOrderLaws {A B} `{KeyOrderLaws A} `{KeyOrderLaws B} :
  KeyOrderLaws (A * B).
Proof.
  split; unfold cmp, pair_KeyOrder.
  - intros [a1 b1] [a2 b2]; simpl. split.
    + destruct (cmp a1 a2) eqn:Ea; try discriminate.
      intros Eb. apply cmp_eq in Ea, Eb. now subst.
    + intros [= -> ->].
      rewrite (proj2 (cmp_eq a2 a2) eq_refl). now apply cmp_eq.
  - intros [a1 b1] [a2 b2]; simpl.
    rewrite (cmp_antisym a1 a2). destruct (cmp a1 a2); simpl; auto.
    apply cmp_antisym.
  - intros [a1 b1] [a2 b2] [a3 b3]; simpl.
    destruct (cmp a1 a2) eqn:E12; try discriminate;
      destruct (cmp a2 a3) eqn:E23; try discriminate; intros H12 H23.
    + apply cmp_eq in E12, E23. subst.
      rewrite (proj2 (cmp_eq a3 a3) eq_refl). eauto using cmp_lt_trans.
    + apply cmp_eq in E12. subst. now rewrite E23.
    + apply cmp_eq in E23. subst. now rewrite E12.
    + now rewrite (cmp_lt_trans a1 a2 a3).
Qed.

(** ** Grouping *)

Section GroupByFacts.

Context {K : Type} `{KeyOrderLaws K}.

Definition key_lt (a b : K) : Prop := cmp a b = Lt.

Lemma key_eqb_eq (a b : K) : key_eqb a b = true <-> a = b.
Proof.
  unfold key_eqb. rewrite <- cmp_eq.
  destruct (cmp a b); intuition congruence.
Qed.

Lemma key_eqb_refl (a : K) : key_eqb a a = true.
Proof. now apply key_eqb_eq. Qed.

Lemma key_lt_irrefl (a : K) : ~ key_lt a a.
Proof. unfold key_lt. rewrite (proj2 (cmp_eq a a) eq_refl). discriminate. Qed.

Lemma insert_key_In (k x : K) (l : list K) :
  In x (insert_key k l) <-> x = k \/ In x l.
Proof.
  induction l as [| y l IH]; simpl.
  - intuition.
  - destruct (cmp k y) eqn:E; simpl.
    + apply cmp_eq in E. subst. intuition.
    + intuition.
    + rewrite IH. intuition.
Qed.

Lemma insert_key_sorted (k : K) (l : list K) :
  StronglySorted key_lt l -> StronglySorted key_lt (insert_key k l).
Proof.
  induction 1 as [| y l Hs IH Hall]; simpl.
  - repeat constructor.
  - destruct (cmp k y) eqn:E.
    + now constructor.
    + constructor; [now constructor |].
      constructor; [exact E |].
      eapply Forall_impl; [| exact Hall].
      intros z Hz. exact (cmp_lt_trans k y z E Hz).
    + constructor; [exact IH |].
      apply Forall_forall. intros z Hz. apply insert_key_In in Hz.
      destruct Hz as [-> | Hz].
      * unfold key_lt. rewrite (cmp_antisym k y), E. reflexivity.
      * rewrite Forall_forall in Hall. now apply Hall.
Qed.

Lemma group_keys_In (x : K) (l : list K) : In x (group_keys l) <-> In x l.
Proof.
  unfold group_keys. induction l as [| y l IH]; simpl.
  - reflexivity.
  - rewrite insert_key_In, IH. intuition.
Qed.

Lemma group_keys_sorted (l : list K) : StronglySorted key_lt (group_keys l).
Proof.
  unfold group_keys. induction l as [| y l IH]; simpl.
  - constructor.
  - now apply insert_key_sorted.
Qed.

Lemma sorted_NoDup (l : list K) : StronglySorted key_lt l -> NoDup l.
Proof.
  induction 1 as [| y l Hs IH Hall]; constructor; [| exact IH].
  intros Hin. rewrite Forall_forall in Hall.
  exact (key_lt_irrefl y (Hall y Hin)).
Qed.

Lemma group_keys_NoDup (l : list K) : NoDup (group_keys l).
Proof. apply sorted_NoDup, group_keys_sorted. Qed.

(** As many groups as distinct keys. *)
Lemma group_keys_length (dec : forall a b : K, {a = b} + {a <> b}) (l : list K) :
  List.length (group_keys l) = List.length (nodup dec l).
Proof.
  apply Permutation_length, NoDup_Permutation.
  - apply group_keys_NoDup.
  - apply NoDup_nodup.
  - intros x. rewrite group_keys_In, nodup_In. reflexivity.
Qed.

Context {Row : Type}.

Lemma groupby_keys (key : Row -> K) (rows : list Row) :
  map fst (groupby key rows) = group_keys (map key rows).
Proof. unfold groupby. rewrite map_map. simpl. apply map_id. Qed.

Lemma groupby_rows (key : Row -> K) (rows : list Row) (g : K * list Row) :
  In g (groupby key rows) ->
  snd g = group_rows key rows (fst g) /\ In (fst g) (map key rows).
Proof.
  unfold groupby. rewrite in_map_iff. intros [k [<- Hk]]. simpl.
  split; [reflexivity | now apply group_keys_In].
Qed.

(** A group of the result is never empty. *)
Lemma group_rows_nonempty (key : Row -> K) (rows : list Row) (k : K) :
  In k (map key rows) -> group_rows key rows k <> [].
Proof.
  rewrite in_map_iff. intros [r [<- Hr]] He.
  assert (Hin : In r (group_rows key rows (key r))).
  { unfold group_rows. apply filter_In. split; [exact Hr | apply key_eqb_refl]. }
  rewrite He in Hin. exact Hin.
Qed.

(** The sums of the groups of distinct keys add up to the sum over the rows
    whose key is one of them. *)
Lemma group_sums_partial (f : Row -> Q) (key : Row -> K) (rows : list Row)
  (keys : list K) :
  NoDup keys ->
  Qsum (map (fun k => Qsum (map f (group_rows key rows k))) keys)
  == Qsum (map f (filter (fun r => existsb (key_eqb (key r)) keys) rows)).
Proof.
  induction 1 as [| k keys Hk Hnd IH]; simpl.
  - rewrite Qsum_nil. induction rows as [| r rows IHr]; simpl; auto with qarith.
  - rewrite Qsum_cons, IH. clear IH.
    induction rows as [| r rows IHr]; simpl.
    + rewrite Qsum_nil. lra.
    + unfold group_rows in *. simpl.
      destruct (key_eqb (key r) k) eqn:Ek; simpl.
      * apply key_eqb_eq in Ek.
        assert (Hnot : existsb (key_eqb (key r)) keys = false).
        { apply Bool.not_true_is_false. intros He.
          apply existsb_exists in He. destruct He as [x [Hx Hxe]].
          apply key_eqb_eq in Hxe. subst. contradiction. }
        rewrite Hnot. simpl. rewrite !Qsum_cons, <- IHr. lra.
      * destruct (existsb (key_eqb (key r)) keys); simpl;
          rewrite ?Qsum_cons, <- IHr; lra.
Qed.

(** The sums of the groups add up to the sum of the column. *)
Lemma groupby_sums (f : Row -> Q) (key : Row -> K) (rows : list Row) :
  Qsum (map (fun g => Qsum (map f (snd g))) (groupby key rows))
  == Qsum (map f rows).
Proof.
  unfold groupby. rewrite map_map. simpl.
  rewrite group_sums_partial by apply group_keys_NoDup.
  assert (Hall : filter (fun r => existsb (key_eqb (key r)) (group_keys (map key rows))) rows = rows).
  { apply forallb_filter_id. apply forallb_forall. intros r Hr.
    apply existsb_exists. exists (key r). split.
    - apply group_keys_In. now apply in_map.
    - apply key_eqb_refl. }
  rewrite Hall. reflexivity.
Qed.

End GroupByFacts.

(** ** The aggregator *)

Lemma is_thermal_iff (r : Reading) : is_thermal r = true <-> asset_type r = "thermal".
Proof. unfold is_thermal. apply String.eqb_eq. Qed.

Lemma scope1_dates (t : ReadingTable) (name : option string) :
  map s1_date (calculate_scope1_emissions t name)
  = group_keys (map reading_date (thermal_rows t name)).
Proof.
  unfold calculate_scope1_emissions. rewrite map_map. simpl.
  rewrite <- groupby_keys. reflexivity.
Qed.

Lemma thermal_rows_In (t : ReadingTable) (name : option string) (r : Reading) :
  In r (thermal_rows t name)
  <-> In r (select_asset t name) /\ asset_type r = "thermal".
Proof. unfold thermal_rows. rewrite filter_In, is_thermal_iff. reflexivity. Qed.

Lemma select_asset_In (t : ReadingTable) (name : option string) (r : Reading) :
  In r (select_asset t name)
  <-> In r t /\ match name with
                | None => True
                | Some n => n = "" \/ asset_name r = n
                end.
Proof.
  destruct name as [[| c n] |]; simpl.
  - split; [intros H; split; auto | intros [H _]; exact H].
  - rewrite filter_In, String.eqb_eq. split; intros [H1 H2]; split; auto.
    destruct H2 as [H2 | H2]; [discriminate H2 | exact H2].
  - tauto.
Qed.






(** C9. With or without an asset filter, the dates of the rows of the
    result of [calculate_scope1_emissions] are strictly ascending, hence
    distinct, and they are exactly the calendar dates of the rows of the
    table that are thermal and, when an asset name that is not empty is
    asked for, carry that name: one row per date, by date ascending. *)
Theorem scope1_one_row_per_date_ascending (t : ReadingTable)
  (name : option string) :
  StronglySorted Z.lt (map s1_date (calculate_scope1_emissions t name)) /\
  NoDup (map s1_date (calculate_scope1_emissions t name)) /\
  (forall d, In d (map s1_date (calculate_scope1_emissions t name)) <->
     exists r, In r t /\
               match name with
               | None => True
               | Some n => n = "" \/ asset_name r = n
               end /\
               asset_type r = "thermal" /\
               date (timestamp r) = d).
Proof.
  rewrite scope1_dates. split; [| split].
  - apply (group_keys_sorted (K := Z)).
  - apply group_keys_NoDup.
  - intros d. rewrite group_keys_In, in_map_iff. split.
    + intros [r [Hd Hr]]. apply thermal_rows_In in Hr. destruct Hr as [Hr Hth].
      apply select_asset_In in Hr. exists r. tauto.
    + intros [r [Hr [Hn [Hth Hd]]]]. exists r. split; [exact Hd |].
      apply thermal_rows_In. split; [| exact Hth].
      apply select_asset_In. tauto.
Qed.

Lemma scope1_empty_when_no_thermal_rows (t : ReadingTable) (name : option string) :
  Forall (fun r => asset_type r <> "thermal") (select_asset t name) ->
  calculate_scope1_emissions t name = [].
Proof.
  intros Hall.
  assert (He : thermal_rows t name = []).
  { unfold thermal_rows.
    induction Hall as [| r l Hr Hl IH]; simpl; [reflexivity |].
    destruct (is_thermal r) eqn:E; [| exact IH].
    apply is_thermal_iff in E. contradiction. }
  unfold calculate_scope1_emissions, groupby. now rewrite He.
Qed.

(** C6. When the table, restricted to the asset of the filter, has no
    thermal row, [calculate_scope1_emissions] returns the empty table. *)
Theorem scope1_empty_when_no_thermal (t : ReadingTable) (name : option string) :
  Forall (fun r => asset_type r <> "thermal") (select_asset t name) ->
  calculate_scope1_emissions t name = [].
Proof.
  intros Hall.
  assert (He : thermal_rows t name = []).
  { unfold thermal_rows. induction (select_asset t name) as [| r l IH]; simpl.
    - reflexivity.
    - inversion Hall; subst.
      destruct (is_thermal r) eqn:E.
      + apply is_thermal_iff in E. contradiction.
      + auto. }
  unfold calculate_scope1_emissions, groupby. now rewrite He.
Qed.

Lemma scope1_empty_when_no_thermal_witness :
  Forall (fun r => asset_type r <> "thermal")
         (select_asset sample_table (Some "Karnataka Solar")) /\
  calculate_scope1_emissions sample_table (Some "Karnataka Solar") = [].
Proof.
  assert (H : Forall (fun r => asset_type r <> "thermal")
                     (select_asset sample_table (Some "Karnataka Solar"))).
  { simpl. repeat constructor. simpl. discriminate. }
  split; [exact H |].
  exact (scope1_empty_when_no_thermal sample_table (Some "Karnataka Solar") H).
Defined.

(** C7. The result of [calculate_water_intensity] has as many rows as the
    table has distinct (calendar date, asset name) pairs. *)
Theorem water_intensity_row_count (t : ReadingTable) :
  List.length (calculate_water_intensity t)
  = List.length
      (nodup date_asset_eq_dec
             (map (fun r => (date (timestamp r), asset_name r)) t)).
Proof.
  unfold calculate_water_intensity, groupby.
  rewrite !length_map. apply group_keys_length.
Qed.

Lemma same_bucket_key (r x : Reading) :
  key_eqb (date_asset x) (date_asset r) = same_bucket r x.
Proof.
  apply Bool.eq_true_iff_eq. rewrite key_eqb_eq. unfold same_bucket, date_asset,
    reading_date. rewrite Bool.andb_true_iff, Z.eqb_eq, String.eqb_eq.
  split; [intros [= -> ->]; auto | intros [-> ->]; reflexivity].
Qed.

Lemma fdiv_zero_divisor (x y : Q) : y == 0 -> is_finite (fdiv x y) = false.
Proof.
  intros Hy. unfold fdiv, Qis_zero.
  rewrite (proj2 (Qeq_bool_iff y 0) Hy).
  destruct (Qcompare x 0); reflexivity.
Qed.

(** C5. When the rows of a (date, asset) bucket of the table sum to zero
    generation, [calculate_water_intensity] returns a row for that bucket,
    and the intensity of the row is a non-finite float (NaN or an infinity):
    the division raises nothing. *)
Theorem water_intensity_zero_generation_marker (t : ReadingTable) (r : Reading) :
  In r t ->
  Qsum (map generation_mw (filter (same_bucket r) t)) == 0 ->
  exists w, In w (calculate_water_intensity t) /\
            w_date w = date (timestamp r) /\
            w_asset_name w = asset_name r /\
            w_generation_mw w == 0 /\
            is_finite (water_intensity w) = false.
Proof.
  intros Hr Hzero.
  assert (Hrows : group_rows date_asset t (date_asset r) = filter (same_bucket r) t).
  { unfold group_rows. apply filter_ext. intros x. apply same_bucket_key. }
  eexists. split.
  - unfold calculate_water_intensity, groupby. rewrite map_map.
    apply in_map_iff. exists (date_asset r). split; [reflexivity |].
    apply group_keys_In. now apply in_map.
  - simpl. rewrite Hrows. repeat split; try assumption.
    now apply fdiv_zero_divisor.
Qed.

Lemma water_intensity_zero_generation_marker_witness :
  exists w, In w (calculate_water_intensity sample_table) /\
            w_date w = 19723%Z /\
            w_asset_name w = "Karnataka Solar" /\
            w_generation_mw w == 0 /\
            is_finite (water_intensity w) = false.
Proof.
  apply (water_intensity_zero_generation_marker sample_table
           (mkReading (day0 + 1 * us_per_hour)%Z "Karnataka Solar" "solar" 500
                      0 0 0 0 0 88)).
  - simpl. auto.
  - reflexivity.
Defined.

(** ** The generated table feeds the report *)

Lemma for_each_In {S A B} (f : A -> State S B) (l : list A) (x : A) :
  In x l -> forall s, exists s', In (fst (f x s')) (fst (for_each f l s)).
Proof.
  induction l as [| a l IH]; intros Hin s; [contradiction |].
  simpl. unfold bind, ret. destruct Hin as [-> | Hin].
  - exists s. destruct (f x s) as [y s1].
    destruct (for_each f l s1) as [ys s2]. simpl. auto.
  - destruct (f a s) as [y s1]. destruct (IH Hin s1) as [s' Hs'].
    exists s'. destruct (for_each f l s1) as [ys s2]. simpl in *. auto.
Qed.

Lemma for_each_concat_incl {S A B} (f : A -> State S (list B)) (l : list A)
  (x : A) :
  In x l ->
  forall s, exists s', incl (fst (f x s')) (fst (for_each_concat f l s)).
Proof.
  induction l as [| a l IH]; intros Hin s; [contradiction |].
  simpl. unfold bind, ret. destruct Hin as [-> | Hin].
  - exists s. destruct (f x s) as [ys s1].
    destruct (for_each_concat f l s1) as [zs s2]. simpl.
    apply incl_appl, incl_refl.
  - destruct (f a s) as [ys s1]. destruct (IH Hin s1) as [s' Hs'].
    exists s'. destruct (for_each_concat f l s1) as [zs s2]. simpl in *.
    now apply incl_appr.
Qed.

(** The window of seven days holds 673 timestamps, the first seven days
    before [now]. *)
Lemma date_range_week (now : Timestamp) :
  date_range (now - timedelta_days 7) now (15 * us_per_minute)
  = map (fun k => (now - timedelta_days 7 + Z.of_nat k * (15 * us_per_minute))%Z)
        (seq 0 673).
Proof.
  unfold date_range.
  replace (now - (now - timedelta_days 7))%Z with (timedelta_days 7) by lia.
  reflexivity.
Qed.

Lemma generate_reading_type (R : Ambient) (name : string) (info : AssetInfo)
  (ts : Timestamp) (s : rs_state R) :
  asset_type (fst (generate_reading R name info ts s)) = info_type info.
Proof. run_reading R; reflexivity. Qed.

(** The generated table has a thermal row. *)
Lemma operational_data_has_thermal (R : Ambient) (now : Timestamp)
  (s : rs_state R) :
  exists r, In r (fst (_generate_operational_data R now s)) /\
            asset_type r = "thermal".
Proof.
  unfold _generate_operational_data.
  destruct (for_each_concat_incl
              (fun asset : string * AssetInfo =>
                 for_each (generate_reading R (fst asset) (snd asset))
                   (date_range (now - timedelta_days 7) now (15 * us_per_minute)))
              ASSETS
              ("Barmer Thermal", mkAssetInfo "thermal" 1320 "Rajasthan")
              (or_introl eq_refl) s) as [s1 Hincl].
  cbn [fst snd] in Hincl.
  destruct (for_each_In
              (generate_reading R "Barmer Thermal"
                 (mkAssetInfo "thermal" 1320 "Rajasthan"))
              (date_range (now - timedelta_days 7) now (15 * us_per_minute))
              (now - timedelta_days 7)%Z) with (s := s1) as [s2 Hin].
  { rewrite date_range_week. left. simpl. lia. }
  eexists. split; [apply Hincl, Hin | apply generate_reading_type].
Qed.

Lemma fdiv_finite (x y : Q) : ~ y == 0 -> is_finite (fdiv x y) = true.
Proof.
  intros Hy. unfold fdiv, Qis_zero.
  destruct (Qeq_bool y 0) eqn:E; [| reflexivity].
  apply Qeq_bool_iff in E. contradiction.
Qed.

(** The generation sums of [calculate_scope1_emissions] on a table whose
    thermal rows all generate. *)
Lemma scope1_generation_positive (t : ReadingTable) (name : option string) :
  Forall (fun r => asset_type r = "thermal" -> 0 < generation_mw r) t ->
  Forall (fun row => 0 < s1_generation_mw row) (calculate_scope1_emissions t name).
Proof.
  intros Hpos. unfold calculate_scope1_emissions.
  apply Forall_map, Forall_forall. intros g Hg. simpl.
  apply groupby_rows in Hg. destruct Hg as [Hrows Hkey]. rewrite Hrows.
  apply Qsum_pos.
  - intros He. apply map_eq_nil in He.
    now apply (group_rows_nonempty reading_date _ _ Hkey).
  - apply Forall_map, Forall_forall. intros r Hr.
    unfold group_rows in Hr. apply filter_In in Hr. destruct Hr as [Hr _].
    apply thermal_rows_In in Hr. destruct Hr as [Hr Hth].
    rewrite Forall_forall in Hpos. apply Hpos; [| exact Hth].
    destruct name as [n |]; simpl in Hr; [| exact Hr].
    destruct (truthy n); [| exact Hr].
    apply filter_In in Hr. tauto.
Qed.

(** C10. On every table the generator produces from the registry, whatever
    the draws (a sample lies in [0, 1)): every thermal reading generates at
    least 0.85 x 0.75 x capacity, which is positive; so every per-date
    generation sum of [calculate_scope1_emissions] is positive, their total
    is positive, and [generate_brsr_report] returns a report whose emission
    intensity is a finite quotient. *)
Theorem thermal_generation_keeps_intensity_defined (R : Ambient)
  (now : Timestamp) (s : rs_state R) :
  unit_samples R ->
  Forall (fun r =>
            asset_type r = "thermal" ->
            0.85 * 0.75 * inject_Z (capacity r) <= generation_mw r /\
            0 < generation_mw r)
         (fst (_generate_operational_data R now s)) /\
  Forall (fun row => 0 < s1_generation_mw row)
         (calculate_scope1_emissions (fst (_generate_operational_data R now s)) None) /\
  0 < Qsum (map s1_generation_mw
              (calculate_scope1_emissions
                 (fst (_generate_operational_data R now s)) None)) /\
  (forall period s',
      exists b,
        fst (generate_brsr_report R (fst (_generate_operational_data R now s))
               period s') = Returned b /\
        is_finite (Emission_Intensity_kgCO2_per_MWh b) = true).
Proof.
  intros HR.
  assert (Hrows : Forall (fun r =>
            asset_type r = "thermal" ->
            0.85 * 0.75 * inject_Z (capacity r) <= generation_mw r /\
            0 < generation_mw r)
         (fst (_generate_operational_data R now s))).
  { apply operational_data_Forall. intros asset ts s0 Hin.
    unfold ASSETS in Hin. simpl in Hin.
    destruct Hin as [<- | [<- | [<- | [<- | []]]]];
      unfold generate_reading; decide_types; run_reading R;
      try (intros Hth; discriminate Hth).
    intros _. sample_bounds HR. unfold inject_Z.
    assert (Hge : 84150 # 100 <= round2 (1320 * 0.75 * (0.85 + (1.05 - 0.85) * u))).
    { apply round2_ge. lra. }
    split; lra. }
  set (t := fst (_generate_operational_data R now s)) in *.
  assert (Hsums : Forall (fun row => 0 < s1_generation_mw row)
                         (calculate_scope1_emissions t None)).
  { apply scope1_generation_positive.
    eapply Forall_impl; [| exact Hrows]. intros r Hr Hth. now apply Hr. }
  assert (Hne : calculate_scope1_emissions t None <> []).
  { destruct (operational_data_has_thermal R now s) as [r [Hr Hth]].
    fold t in Hr. intros He.
    assert (Hd : In (date (timestamp r))
                    (map s1_date (calculate_scope1_emissions t None))).
    { rewrite scope1_dates. apply group_keys_In.
      apply (in_map reading_date). apply thermal_rows_In. auto. }
    rewrite He in Hd. exact Hd. }
  assert (Htotal : 0 < Qsum (map s1_generation_mw (calculate_scope1_emissions t None))).
  { apply Qsum_pos.
    - intros He. apply map_eq_nil in He. contradiction.
    - now apply Forall_map. }
  repeat split; try assumption.
  intros period s'. unfold generate_brsr_report.
  destruct (calculate_water_intensity t) as [| w ws] eqn:Ew.
  - exfalso.
    destruct (operational_data_has_thermal R now s) as [r [Hr _]]. fold t in Hr.
    assert (Hk : In (date_asset r) (map fst (groupby date_asset t))).
    { rewrite groupby_keys. apply group_keys_In. now apply in_map. }
    unfold calculate_water_intensity in Ew. apply map_eq_nil in Ew.
    rewrite Ew in Hk. exact Hk.
  - unfold uniform, bind, ret. destruct (random_sample R s') as [u s1].
    eexists. split; [reflexivity |]. simpl.
    apply fdiv_finite. lra.
Qed.

(** ** The toy ambient is well behaved *)

Lemma toy_unit_samples : unit_samples toy.
Proof.
  intros n. unfold toy, toy_tick, Qle, Qlt. cbn [random_sample fst Qnum Qden].
  pose proof (Nat.mod_upper_bound n 10). lia.
Qed.

Lemma toy_sine_bounded : sine_bounded toy.
Proof.
  intros h. simpl. unfold toy_sin.
  generalize (Z.to_nat h). intros n.
  do 24 (destruct n as [| n]; [simpl; lra |]).
  destruct n; simpl; lra.
Qed.

Lemma generation_within_capacity_witness :
  Forall (fun r =>
            0 <= generation_mw r /\
            generation_mw r <= 1.2 * inject_Z (capacity r))
         (fst (_generate_operational_data toy now0 0%nat)).
Proof.
  exact (generation_within_capacity toy now0 0%nat
           toy_unit_samples toy_sine_bounded).
Defined.

Lemma thermal_generation_keeps_intensity_defined_witness :
  0 < Qsum (map s1_generation_mw
              (calculate_scope1_emissions
                 (fst (_generate_operational_data toy now0 0%nat)) None)).
Proof.
  exact (proj1 (proj2 (proj2
           (thermal_generation_keeps_intensity_defined toy now0 0%nat
              toy_unit_samples)))).
Defined.

(** ** Two calls, two runs *)

(** C3, as stated, fails: two calls of [generate_brsr_report] in a row on
    the same table return reports with different quality scores. *)
Lemma brsr_report_twice_differs :
  score_of (fst (call_twice (generate_brsr_report toy sample_table "Q1-2024") 0%nat))
  <> score_of (snd (call_twice (generate_brsr_report toy sample_table "Q1-2024") 0%nat)).
Proof. vm_compute. discriminate. Qed.

(** C3, amended.  Two calls in a row of one method on the same table.
    [calculate_scope1_emissions] and [calculate_water_intensity] give the
    same result both times and draw nothing.  [generate_brsr_report] either
    raises the same error both times or returns two reports that agree on
    every entry but [Data_Quality_Score]: the score of each call is its own
    draw of [uniform(95, 100)], the second from the state the first left,
    and lies between 95 and 100. *)
Theorem aggregator_methods_twice (R : Ambient) (t : ReadingTable) (m : method)
  (s : rs_state R) :
  unit_samples R ->
  match m with
  | call_report _ =>
      match fst (call_twice (call_method R t m) s),
            snd (call_twice (call_method R t m) s) with
      | report_result (Returned b1), report_result (Returned b2) =>
          b2 = with_score (Data_Quality_Score b2) b1 /\
          Data_Quality_Score b1 = 95 + (100 - 95) * fst (random_sample R s) /\
          Data_Quality_Score b2
          = 95 + (100 - 95) * fst (random_sample R (snd (random_sample R s))) /\
          (95 <= Data_Quality_Score b1 /\ Data_Quality_Score b1 <= 100) /\
          (95 <= Data_Quality_Score b2 /\ Data_Quality_Score b2 <= 100)
      | report_result (Raised e1), report_result (Raised e2) => e1 = e2
      | _, _ => False
      end
  | _ =>
      fst (call_twice (call_method R t m) s)
      = snd (call_twice (call_method R t m) s) /\
      snd (call_method R t m s) = s
  end.
Proof.
  intros HR. destruct m as [name | | period].
  - split; reflexivity.
  - split; reflexivity.
  - unfold call_twice, call_method, generate_brsr_report.
    destruct (calculate_water_intensity t) as [| w ws].
    + reflexivity.
    + unfold uniform, bind, ret.
      pose proof (HR s) as H1.
      destruct (random_sample R s) as [u1 s1]. cbn [fst snd] in *.
      pose proof (HR s1) as H2.
      destruct (random_sample R s1) as [u2 s2]. cbn [fst snd] in *.
      cbn [Data_Quality_Score with_score].
      repeat split; try reflexivity; lra.
Qed.

Lemma aggregator_methods_twice_witness :
  match fst (call_twice (call_method toy sample_table (call_report "Q1-2024")) 0%nat),
        snd (call_twice (call_method toy sample_table (call_report "Q1-2024")) 0%nat) with
  | report_result (Returned b1), report_result (Returned b2) =>
      b2 = with_score (Data_Quality_Score b2) b1 /\
      Data_Quality_Score b1 = 95 + (100 - 95) * fst (random_sample toy 0%nat) /\
      Data_Quality_Score b2
      = 95 + (100 - 95) * fst (random_sample toy (snd (random_sample toy 0%nat))) /\
      (95 <= Data_Quality_Score b1 /\ Data_Quality_Score b1 <= 100) /\
      (95 <= Data_Quality_Score b2 /\ Data_Quality_Score b2 <= 100)
  | report_result (Raised e1), report_result (Raised e2) => e1 = e2
  | _, _ => False
  end.
Proof.
  exact (aggregator_methods_twice toy sample_table (call_report "Q1-2024") 0%nat
           toy_unit_samples).
Defined.

Lemma for_each_concat_length {S A B} (f : A -> State S (list B)) (l : list A)
  (n : nat) :
  (forall x s, List.length (fst (f x s)) = n) ->
  forall s, List.length (fst (for_each_concat f l s)) = (List.length l * n)%nat.
Proof.
  intros Hf. induction l as [| a l IH]; intros s; simpl; [reflexivity |].
  unfold bind, ret. pose proof (Hf a s) as Ha.
  destruct (f a s) as [ys s1]. specialize (IH s1).
  destruct (for_each_concat f l s1) as [zs s2]. simpl in *.
  rewrite length_app. lia.
Qed.

(** C4, as stated, fails: [DataGenerator] takes no seed, a call with one is
    refused; and two calls without one, from different states of the random
    source, return different tables. *)
Lemma generator_takes_no_seed :
  DataGenerator_call toy (Some 42%Z) now0 0%nat = Raised TypeError /\
  first_generation (DataGenerator_call toy None now0 0%nat)
  <> first_generation (DataGenerator_call toy None now0 1%nat).
Proof. split; [reflexivity |]. vm_compute. discriminate. Qed.

(** * Further properties of the generator *)

(** ** The error of a rounding *)

Lemma round_half_even_error (q : Q) :
  inject_Z (round_half_even q) - q <= 1 # 2 /\
  q - inject_Z (round_half_even q) <= 1 # 2.
Proof.
  pose proof (Qfloor_le q) as Hlo. pose proof (Qlt_floor q) as Hhi.
  rewrite inject_Z_plus in Hhi. change (inject_Z 1) with 1 in Hhi.
  unfold round_half_even.
  destruct (Qcompare_spec (q - inject_Z (Qfloor q)) (1 # 2)) as [H | H | H].
  - destruct (Z.even (Qfloor q)).
    + lra.
    + rewrite inject_Z_plus. change (inject_Z 1) with 1. lra.
  - lra.
  - rewrite inject_Z_plus. change (inject_Z 1) with 1. lra.
Qed.

Lemma round2_scaled (q : Q) : round2 q * 100 == inject_Z (round_half_even (q * 100)).
Proof.
  unfold round2, Qeq. cbn [Qnum Qden Qmult inject_Z]. lia.
Qed.

(** A rounding to two decimals moves a number by half a hundredth at most. *)
Lemma round2_error (q : Q) :
  round2 q - q <= 1 # 200 /\ q - round2 q <= 1 # 200.
Proof.
  pose proof (round_half_even_error (q * 100)) as [H1 H2].
  rewrite <- round2_scaled in H1, H2. lra.
Qed.

(** What is less than half a hundredth, and not negative, rounds to zero. *)
Lemma round2_small (q : Q) : 0 <= q -> q < 1 # 200 -> round2 q == 0.
Proof.
  intros Hlo Hhi.
  assert (Hf : Qfloor (q * 100) = 0%Z).
  { pose proof (Qfloor_le (q * 100)) as H1.
    pose proof (Qlt_floor (q * 100)) as H2.
    assert (H3 : (Qfloor (q * 100) < 1)%Z).
    { rewrite Zlt_Qlt. change (inject_Z 1) with 1. lra. }
    assert (H4 : (-1 < Qfloor (q * 100))%Z).
    { rewrite Zlt_Qlt. rewrite inject_Z_plus in H2.
      change (inject_Z 1) with 1 in H2. change (inject_Z (-1)) with (-1). lra. }
    lia. }
  assert (Hr : round_half_even (q * 100) = 0%Z).
  { unfold round_half_even. rewrite Hf.
    destruct (Qcompare_spec (q * 100 - inject_Z 0) (1 # 2)) as [H | H | H];
      try reflexivity.
    change (inject_Z 0) with 0 in H. lra. }
  unfold round2. rewrite Hr. reflexivity.
Qed.

(** ** The rows, one by one *)

Lemma hour_range (ts : Timestamp) : (0 <= hour ts < 24)%Z.
Proof. unfold hour. apply Z.mod_pos_bound. lia. Qed.

(** The columns of a row that no draw touches. *)
Lemma generate_reading_fixed (R : Ambient) (name : string) (info : AssetInfo)
  (ts : Timestamp) (s : rs_state R) :
  let r := fst (generate_reading R name info ts s) in
  asset_name r = name /\ asset_type r = info_type info /\
  capacity r = info_capacity info /\ timestamp r = ts.
Proof. cbv zeta. run_reading R; repeat split; reflexivity. Qed.

(** The drawn columns of a row of a registry asset: the generation [g]
    before rounding lies between 0 and 0.825 of the capacity, the water
    rate [w] between 50 and 150, the efficiency [e] between 85 and 95. *)
Lemma generate_reading_drawn (R : Ambient) (asset : string * AssetInfo)
  (ts : Timestamp) (s : rs_state R) :
  unit_samples R -> sine_bounded R -> In asset ASSETS ->
  exists g w e,
    0 <= g /\ g <= 0.825 * inject_Z (info_capacity (snd asset)) /\
    50 <= w /\ w <= 150 /\ 85 <= e /\ e <= 95 /\
    let r := fst (generate_reading R (fst asset) (snd asset) ts s) in
    generation_mw r = round2 g /\
    water_withdrawal_cum r = round2 (w * g / 1000) /\
    operating_efficiency r = round2 e.
Proof.
  intros HR Hsin Hin.
  pose proof (solar_shape_range (hour ts)) as Hshape.
  pose proof (Hsin (hour ts)) as Hsine.
  unfold ASSETS in Hin. simpl in Hin.
  destruct Hin as [<- | [<- | [<- | [<- | []]]]];
    unfold generate_reading; decide_types; run_reading R; sample_bounds HR;
    unfold inject_Z in *;
    (eexists; eexists; eexists;
     split; [| split; [| split; [| split; [| split; [| split;
       [| split; [reflexivity | split; reflexivity]]]]]]]);
    nra.
Qed.

Lemma for_each_map {S A B C} (f : A -> State S B) (g : B -> C) (h : A -> C)
  (l : list A) :
  (forall x s, g (fst (f x s)) = h x) ->
  forall s, map g (fst (for_each f l s)) = map h l.
Proof.
  intros Hf. induction l as [| a l IH]; intros s; simpl; [reflexivity |].
  unfold bind, ret. pose proof (Hf a s) as Ha.
  destruct (f a s) as [y s1]. specialize (IH s1).
  destruct (for_each f l s1) as [ys s2]. simpl in *. congruence.
Qed.

Lemma for_each_concat_map {S A B C} (f : A -> State S (list B)) (g : B -> C)
  (h : A -> list C) (l : list A) :
  (forall x s, map g (fst (f x s)) = h x) ->
  forall s, map g (fst (for_each_concat f l s)) = flat_map h l.
Proof.
  intros Hf. induction l as [| a l IH]; intros s; simpl; [reflexivity |].
  unfold bind, ret. pose proof (Hf a s) as Ha.
  destruct (f a s) as [ys s1]. specialize (IH s1).
  destruct (for_each_concat f l s1) as [zs s2]. simpl in *.
  rewrite map_app. congruence.
Qed.

(** The two tables of a call without a seed. *)
Lemma DataGenerator_call_tables (R : Ambient) (now : Timestamp) (s : rs_state R) :
  DataGenerator_call R None now s
  = Returned (fst (_generate_operational_data R now s),
              fst (_generate_esg_metadata R (snd (_generate_operational_data R now s)))).
Proof.
  unfold DataGenerator_call, DataGenerator_init, bind, ret.
  destruct (_generate_operational_data R now s) as [readings s1].
  cbn [fst snd].
  destruct (_generate_esg_metadata R s1) as [audit s2]. reflexivity.
Qed.

(** The columns of the readings that no draw touches, the timestamps counted
    from the reading of the clock. *)
Lemma operational_data_relative_layout (R : Ambient) (now : Timestamp)
  (s : rs_state R) :
  map (fun r => (asset_name r, asset_type r, capacity r, (timestamp r - now)%Z))
      (fst (_generate_operational_data R now s))
  = flat_map
      (fun a : string * AssetInfo =>
         map (fun k =>
                (fst a, info_type (snd a), info_capacity (snd a),
                 (Z.of_nat k * (15 * us_per_minute) - 7 * us_per_day)%Z))
             (seq 0 673))
      ASSETS.
Proof.
  unfold _generate_operational_data.
  apply for_each_concat_map. intros a s1.
  rewrite date_range_week.
  rewrite (for_each_map _
             (fun r => (asset_name r, asset_type r, capacity r, (timestamp r - now)%Z))
             (fun ts => (fst a, info_type (snd a), info_capacity (snd a),
                         (ts - now)%Z))).
  - rewrite map_map. apply map_ext. intros k. f_equal.
    unfold timedelta_days. lia.
  - intros ts s2.
    destruct (generate_reading_fixed R (fst a) (snd a) ts s2)
      as [-> [-> [-> ->]]].
    reflexivity.
Qed.

Lemma operational_data_length (R : Ambient) (now : Timestamp) (s : rs_state R) :
  List.length (fst (_generate_operational_data R now s)) = 2692%nat.
Proof.
  rewrite <- (length_map
                (fun r => (asset_name r, asset_type r, capacity r, (timestamp r - now)%Z))).
  rewrite operational_data_relative_layout. reflexivity.
Qed.

Lemma generate_audit_record_source_system (R : Ambient) (k : nat)
  (s : rs_state R) :
  source_system (fst (generate_audit_record R k s)) = "PI_System".
Proof.
  unfold generate_audit_record, choice, choice_weighted, bind, ret.
  repeat (cbv beta;
          match goal with
          | |- context [randint R ?n ?s0] => destruct (randint R n s0) as [? ?]
          | |- context [random_sample R ?s0] => destruct (random_sample R s0) as [? ?]
          | |- context [fake_uuid4 R ?s0] => destruct (fake_uuid4 R s0) as [? ?]
          | |- context [fake_sha256 R ?s0] => destruct (fake_sha256 R s0) as [? ?]
          | |- context [fake_email R ?s0] => destruct (fake_email R s0) as [? ?]
          | |- context [fake_date_time_this_month R ?s0] =>
              destruct (fake_date_time_this_month R s0) as [? ?]
          end).
  reflexivity.
Qed.

(** C4, amended.  The generator takes no seed: a call with a seed raises a
    type error.  Two calls without one, at whatever readings of the clock
    and from whatever states of the random sources, agree in shape: both
    return 2692 readings with the same asset names, asset types and
    capacities, row by row, and the same timestamps counted from the reading
    of the clock, and 100 audit records with the same source system; the
    values drawn are not reproducible. *)
Theorem generator_runs_agree_in_shape (R : Ambient) (now1 now2 : Timestamp)
  (s1 s2 : rs_state R) :
  (forall seed, DataGenerator_call R (Some seed) now1 s1 = Raised TypeError) /\
  exists readings1 audit1 readings2 audit2,
    DataGenerator_call R None now1 s1 = Returned (readings1, audit1) /\
    DataGenerator_call R None now2 s2 = Returned (readings2, audit2) /\
    List.length readings1 = 2692%nat /\ List.length readings2 = 2692%nat /\
    map (fun r => (asset_name r, asset_type r, capacity r, (timestamp r - now1)%Z))
        readings1
    = map (fun r => (asset_name r, asset_type r, capacity r, (timestamp r - now2)%Z))
          readings2 /\
    List.length audit1 = 100%nat /\ List.length audit2 = 100%nat /\
    map source_system audit1 = map source_system audit2.
Proof.
  split; [reflexivity |].
  do 4 eexists.
  split; [apply DataGenerator_call_tables |].
  split; [apply DataGenerator_call_tables |].
  split; [apply operational_data_length |].
  split; [apply operational_data_length |].
  split; [now rewrite !operational_data_relative_layout |].
  assert (Hlen : forall s, List.length (fst (_generate_esg_metadata R s)) = 100%nat).
  { intros s. exact (eq_trans (for_each_length (generate_audit_record R) (seq 0 100) s)
                               (length_seq _ _)). }
  assert (Hsys : forall s, map source_system (fst (_generate_esg_metadata R s))
                           = map (fun _ => "PI_System") (seq 0 100)).
  { intros s. unfold _generate_esg_metadata. apply for_each_map.
    intros k s0. apply generate_audit_record_source_system. }
  split; [apply Hlen |]. split; [apply Hlen |].
  now rewrite !Hsys.
Qed.

(** X1. The asset, type, capacity and timestamp columns of the generated
    table depend on the clock alone: asset after asset in the order of the
    registry, each with the 673 timestamps [now - 7 days + k x 15 minutes],
    [k] from 0 to 672, ascending; the last one is [now]. *)
Theorem operational_data_layout (R : Ambient) (now : Timestamp) (s : rs_state R) :
  map (fun r => (asset_name r, asset_type r, capacity r, timestamp r))
      (fst (_generate_operational_data R now s))
  = flat_map
      (fun a : string * AssetInfo =>
         map (fun k =>
                (fst a, info_type (snd a), info_capacity (snd a),
                 (now - 7 * us_per_day + Z.of_nat k * (15 * us_per_minute))%Z))
             (seq 0 673))
      ASSETS
  /\ (now - 7 * us_per_day + Z.of_nat 672 * (15 * us_per_minute))%Z = now.
Proof.
  split.
  - unfold _generate_operational_data.
    apply for_each_concat_map. intros a s1.
    rewrite date_range_week.
    rewrite (for_each_map _
               (fun r => (asset_name r, asset_type r, capacity r, timestamp r))
               (fun ts => (fst a, info_type (snd a), info_capacity (snd a), ts))).
    + rewrite map_map. reflexivity.
    + intros ts s2.
      destruct (generate_reading_fixed R (fst a) (snd a) ts s2)
        as [-> [-> [-> ->]]].
      reflexivity.
  - unfold us_per_day, us_per_minute. lia.
Qed.

Lemma solar_shape_night (h : Z) :
  (h < 9 \/ 15 < h)%Z -> max0 (-0.1 * (inject_Z h - 12) ^ 2 + 1) = 0.
Proof.
  intros Hh. unfold max0.
  assert (Hle : -0.1 * (inject_Z h - 12) ^ 2 + 1 <= 0).
  { simpl. destruct Hh as [Hh | Hh].
    - assert (H8 : inject_Z h <= 8).
      { change 8 with (inject_Z 8). rewrite <- Zle_Qle. lia. }
      nra.
    - assert (H16 : 16 <= inject_Z h).
      { change 16 with (inject_Z 16). rewrite <- Zle_Qle. lia. }
      nra. }
  apply Qle_bool_iff in Hle. now rewrite Hle.
Qed.

(** X2. Whatever the draws, a solar row whose timestamp has an hour before
    9 or after 15 has no generation and no water withdrawal: the bell of
    the solar shape is cut at zero four hours from noon. *)
Theorem solar_rows_dark_outside_9_to_15 (R : Ambient) (now : Timestamp)
  (s : rs_state R) :
  Forall (fun r =>
            asset_type r = "solar" ->
            (hour (timestamp r) < 9 \/ 15 < hour (timestamp r))%Z ->
            generation_mw r == 0 /\ water_withdrawal_cum r == 0)
         (fst (_generate_operational_data R now s)).
Proof.
  apply operational_data_Forall. intros asset ts s0 Hin.
  unfold ASSETS in Hin. simpl in Hin.
  destruct Hin as [<- | [<- | [<- | [<- | []]]]];
    unfold generate_reading; decide_types; run_reading R;
    intros Hty; try discriminate Hty.
  intros Hh. rewrite (solar_shape_night _ Hh).
  unfold Qdiv. change (/ 1000) with (1 # 1000). unfold inject_Z.
  split; apply round2_small; lra.
Qed.

(** X3. In every row of the generated table the water withdrawal lies
    between 0 and 0.15 times the capacity and the operating efficiency
    between 85 and 95; in a thermal row the calorific value lies between
    3700 and 3900. *)
Theorem generated_rows_plausible (R : Ambient) (now : Timestamp)
  (s : rs_state R) :
  unit_samples R -> sine_bounded R ->
  Forall (fun r =>
            (0 <= water_withdrawal_cum r /\
             water_withdrawal_cum r <= 0.15 * inject_Z (capacity r)) /\
            (85 <= operating_efficiency r /\ operating_efficiency r <= 95) /\
            (asset_type r = "thermal" ->
             3700 <= coal_calorific_value_kcal r /\
             coal_calorific_value_kcal r <= 3900))
         (fst (_generate_operational_data R now s)).
Proof.
  intros HR Hsin. apply operational_data_Forall. intros asset ts s0 Hin.
  destruct (generate_reading_drawn R asset ts s0 HR Hsin Hin)
    as (g & w & e & Hg0 & Hg1 & Hw0 & Hw1 & He0 & He1 & Hgen & Hwat & Heff).
  destruct (generate_reading_fixed R (fst asset) (snd asset) ts s0)
    as (_ & _ & Hcap & _).
  rewrite Hwat, Heff, Hcap. clear Hgen Hwat Heff Hcap.
  split; [| split].
  - unfold Qdiv. change (/ 1000) with (1 # 1000).
    unfold ASSETS in Hin. simpl in Hin.
    destruct Hin as [<- | [<- | [<- | [<- | []]]]];
      cbn [snd info_capacity] in *; unfold inject_Z in *.
    + apply (round2_between 0 19800); nra.
    + apply (round2_between 0 7500); nra.
    + apply (round2_between 0 4500); nra.
    + apply (round2_between 0 3600); nra.
  - apply (round2_between 8500 9500); lra.
  - unfold ASSETS in Hin. simpl in Hin.
    destruct Hin as [<- | [<- | [<- | [<- | []]]]];
      unfold generate_reading; decide_types; run_reading R;
      intros Hty; try discriminate Hty.
    sample_bounds HR. lra.
Qed.

Lemma generated_rows_plausible_witness :
  Forall (fun r =>
            (0 <= water_withdrawal_cum r /\
             water_withdrawal_cum r <= 0.15 * inject_Z (capacity r)) /\
            (85 <= operating_efficiency r /\ operating_efficiency r <= 95) /\
            (asset_type r = "thermal" ->
             3700 <= coal_calorific_value_kcal r /\
             coal_calorific_value_kcal r <= 3900))
         (fst (_generate_operational_data toy now0 0%nat)).
Proof.
  exact (generated_rows_plausible toy now0 0%nat
           toy_unit_samples toy_sine_bounded).
Defined.

(** X4. Whatever the draws, in every row of the generated table the
    emissions are 2.5 times the fuel consumed up to the two roundings: the
    two columns differ from the factor by 0.0175 at most. *)
Theorem emissions_follow_fuel (R : Ambient) (now : Timestamp) (s : rs_state R) :
  Forall (fun r =>
            emissions_co2_tonnes r - 2.5 * fuel_consumed_tonnes r <= 0.0175 /\
            2.5 * fuel_consumed_tonnes r - emissions_co2_tonnes r <= 0.0175)
         (fst (_generate_operational_data R now s)).
Proof.
  apply operational_data_Forall. intros [name info] ts s0 _.
  cbn [fst snd]. run_reading R;
    try (rewrite !round2_0; split; lra).
  all: match goal with
       | |- context [round2 (?f * 2.5)] =>
           pose proof (round2_error f) as [H1 H2];
           pose proof (round2_error (f * 2.5)) as [H3 H4];
           generalize dependent (round2 (f * 2.5));
           generalize dependent (round2 f);
           generalize dependent f
       end; intros; lra.
Qed.

(** ** No infinite intensity *)

Lemma Qsum_nonneg (l : list Q) : Forall (fun x => 0 <= x) l -> 0 <= Qsum l.
Proof.
  induction 1 as [| x l Hx Hl IH].
  - rewrite Qsum_nil. lra.
  - rewrite Qsum_cons. lra.
Qed.

Lemma Qsum_zero_all (l : list Q) :
  Forall (fun x => 0 <= x) l -> Qsum l == 0 -> Forall (fun x => x == 0) l.
Proof.
  induction 1 as [| x l Hx Hl IH]; intros Hs; constructor.
  - rewrite Qsum_cons in Hs. pose proof (Qsum_nonneg l Hl). lra.
  - apply IH. rewrite Qsum_cons in Hs. pose proof (Qsum_nonneg l Hl). lra.
Qed.

Lemma Qsum_all_zero (l : list Q) : Forall (fun x => x == 0) l -> Qsum l == 0.
Proof.
  induction 1 as [| x l Hx Hl IH].
  - apply Qsum_nil.
  - rewrite Qsum_cons, Hx, IH. lra.
Qed.

(** On a table whose rows generate nothing negative and withdraw no water
    without generating, every intensity is a finite quotient or NaN. *)
Lemma water_intensity_nan_or_finite (t : ReadingTable) :
  Forall (fun r =>
            0 <= generation_mw r /\
            (generation_mw r == 0 -> water_withdrawal_cum r == 0)) t ->
  Forall (fun w =>
            (w_generation_mw w == 0 /\ water_intensity w = NaN) \/
            (0 < w_generation_mw w /\
             water_intensity w
             = Fin (w_water_withdrawal_cum w / w_generation_mw w)))
         (calculate_water_intensity t).
Proof.
  intros Ht. unfold calculate_water_intensity.
  apply Forall_map, Forall_forall. intros g Hg. cbn [w_generation_mw
    w_water_withdrawal_cum water_intensity].
  apply groupby_rows in Hg. destruct Hg as [Hrows _]. rewrite Hrows.
  set (rows := group_rows date_asset t (fst g)).
  assert (Hsub : Forall (fun r =>
            0 <= generation_mw r /\
            (generation_mw r == 0 -> water_withdrawal_cum r == 0)) rows).
  { apply Forall_forall. intros r Hr. unfold rows, group_rows in Hr.
    apply filter_In in Hr. rewrite Forall_forall in Ht. now apply Ht. }
  assert (Hnn : Forall (fun x => 0 <= x) (map generation_mw rows)).
  { apply Forall_map. eapply Forall_impl; [| exact Hsub]. intros r Hr. apply Hr. }
  pose proof (Qsum_nonneg _ Hnn) as Hge.
  unfold fdiv, Qis_zero.
  destruct (Qeq_bool (Qsum (map generation_mw rows)) 0) eqn:Ez.
  - left. apply Qeq_bool_iff in Ez. split; [exact Ez |].
    assert (Hw : Qsum (map water_withdrawal_cum rows) == 0).
    { apply Qsum_all_zero, Forall_map.
      pose proof (Qsum_zero_all _ Hnn Ez) as Hall.
      rewrite Forall_map in Hall.
      rewrite Forall_forall in *. intros r Hr.
      apply (Hsub r Hr), (Hall r Hr). }
    apply Qeq_alt in Hw. now rewrite Hw.
  - right. split; [| reflexivity].
    apply Qeq_bool_neq in Ez. lra.
Qed.

(** X5. On every table the generator produces, the intensity of a row of
    [calculate_water_intensity] is never an infinity: it is NaN when the
    bucket generated nothing (it withdrew nothing either), and the finite
    quotient of the two sums otherwise. *)
Theorem generated_water_intensity_never_infinite (R : Ambient)
  (now : Timestamp) (s : rs_state R) :
  unit_samples R -> sine_bounded R ->
  Forall (fun w =>
            (w_generation_mw w == 0 /\ water_intensity w = NaN) \/
            (0 < w_generation_mw w /\
             water_intensity w
             = Fin (w_water_withdrawal_cum w / w_generation_mw w)))
         (calculate_water_intensity (fst (_generate_operational_data R now s))).
Proof.
  intros HR Hsin. apply water_intensity_nan_or_finite.
  apply operational_data_Forall. intros asset ts s0 Hin.
  destruct (generate_reading_drawn R asset ts s0 HR Hsin Hin)
    as (g & w & e & Hg0 & Hg1 & Hw0 & Hw1 & He0 & He1 & Hgen & Hwat & Heff).
  rewrite Hgen, Hwat. split.
  - apply Qle_trans with (0 # 100); [lra | apply round2_ge; lra].
  - intros Hz. pose proof (round2_error g) as [_ Herr].
    unfold Qdiv. change (/ 1000) with (1 # 1000).
    apply round2_small; nra.
Qed.

Lemma generated_water_intensity_never_infinite_witness :
  Forall (fun w =>
            (w_generation_mw w == 0 /\ water_intensity w = NaN) \/
            (0 < w_generation_mw w /\
             water_intensity w
             = Fin (w_water_withdrawal_cum w / w_generation_mw w)))
         (calculate_water_intensity (fst (_generate_operational_data toy now0 0%nat))).
Proof.
  exact (generated_water_intensity_never_infinite toy now0 0%nat
           toy_unit_samples toy_sine_bounded).
Defined.

(** * Further properties of the aggregator *)



(** X7. When exactly one thermal reading is left after the filter, the
    result of [calculate_scope1_emissions] is one row, with the date and
    the three values of that reading. *)
Theorem scope1_single_thermal_reading (t : ReadingTable) (name : option string)
  (r : Reading) :
  filter (fun x => String.eqb (asset_type x) "thermal") (select_asset t name) = [r] ->
  exists row,
    calculate_scope1_emissions t name = [row] /\
    s1_date row = date (timestamp r) /\
    s1_generation_mw row == generation_mw r /\
    s1_fuel_consumed_tonnes row == fuel_consumed_tonnes r /\
    s1_emissions_co2_tonnes row == emissions_co2_tonnes r.
Proof.
  intros Hone. unfold calculate_scope1_emissions, thermal_rows, is_thermal, groupby.
  rewrite Hone. cbn [map group_keys fold_right insert_key group_rows filter].
  rewrite key_eqb_refl. eexists. split; [reflexivity |].
  cbn [s1_date s1_generation_mw s1_fuel_consumed_tonnes s1_emissions_co2_tonnes
       fst snd map].
  split; [reflexivity |].
  repeat split; rewrite Qsum_cons, Qsum_nil; lra.
Qed.

Lemma scope1_single_thermal_reading_witness :
  exists row,
    calculate_scope1_emissions (skipn 3 sample_table) None = [row] /\
    s1_date row = 19724%Z /\
    s1_generation_mw row == 1000 /\
    s1_fuel_consumed_tonnes row == 2500 /\
    s1_emissions_co2_tonnes row == 6250.
Proof.
  exact (scope1_single_thermal_reading (skipn 3 sample_table) None
           (mkReading (day0 + us_per_day + 2 * us_per_hour)%Z "Barmer Thermal"
                      "thermal" 1320 1000 2500 3850 6250 120 92)
           eq_refl).
Defined.

(** In the generated table the thermal rows are the rows of Barmer Thermal. *)
Lemma operational_data_thermal_is_barmer (R : Ambient) (now : Timestamp)
  (s : rs_state R) :
  Forall (fun r => asset_type r = "thermal" <-> asset_name r = "Barmer Thermal")
         (fst (_generate_operational_data R now s)).
Proof.
  apply operational_data_Forall. intros asset ts s0 Hin.
  destruct (generate_reading_fixed R (fst asset) (snd asset) ts s0)
    as (-> & -> & _ & _).
  unfold ASSETS in Hin. simpl in Hin.
  destruct Hin as [<- | [<- | [<- | [<- | []]]]]; simpl;
    split; intros H; (reflexivity || discriminate H).
Qed.

(** X8. On every table the generator produces, the filter on
    ["Barmer Thermal"] changes nothing in the result of
    [calculate_scope1_emissions], and the filter on any other name (not
    empty) empties it: the only thermal asset of the registry is Barmer
    Thermal. *)
Theorem generated_scope1_filters (R : Ambient) (now : Timestamp) (s : rs_state R) :
  calculate_scope1_emissions (fst (_generate_operational_data R now s))
    (Some "Barmer Thermal")
  = calculate_scope1_emissions (fst (_generate_operational_data R now s)) None /\
  (forall n, n <> "" -> n <> "Barmer Thermal" ->
     calculate_scope1_emissions (fst (_generate_operational_data R now s))
       (Some n) = []).
Proof.
  pose proof (operational_data_thermal_is_barmer R now s) as Hb.
  set (t := fst (_generate_operational_data R now s)) in *.
  split.
  - unfold calculate_scope1_emissions, thermal_rows. cbn [select_asset truthy].
    assert (He : filter is_thermal
                   (filter (fun r => String.eqb (asset_name r) "Barmer Thermal") t)
                 = filter is_thermal t).
    { induction Hb as [| r l Hr Hl IH]; [reflexivity |]. simpl.
      destruct (is_thermal r) eqn:Eth.
      - apply is_thermal_iff in Eth. apply Hr in Eth.
        rewrite (proj2 (String.eqb_eq _ _) Eth). simpl.
        rewrite (proj2 (is_thermal_iff r) (proj2 Hr Eth)). now rewrite IH.
      - destruct (String.eqb (asset_name r) "Barmer Thermal"); simpl;
          rewrite ?Eth; exact IH. }
    now rewrite He.
  - intros n Hne Hnb. apply scope1_empty_when_no_thermal_rows.
    destruct n as [| c n']; [congruence |]. cbn [select_asset truthy].
    apply Forall_forall. intros r Hr. apply filter_In in Hr.
    destruct Hr as [Hr Hn]. apply String.eqb_eq in Hn.
    rewrite Forall_forall in Hb. intros Hth. apply (Hb r Hr) in Hth. congruence.
Qed.



Lemma water_intensity_keys (t : ReadingTable) :
  map (fun w => (w_date w, w_asset_name w)) (calculate_water_intensity t)
  = group_keys (map date_asset t).
Proof.
  unfold calculate_water_intensity. rewrite map_map. cbn [w_date w_asset_name].
  rewrite <- groupby_keys. apply map_ext. intros [[d n] rows]. reflexivity.
Qed.



Lemma ratio_percentage (a b : nat) :
  (a <= b)%nat -> (0 < b)%nat ->
  0 <= inject_Z (Z.of_nat a) / inject_Z (Z.of_nat b) * 100 /\
  inject_Z (Z.of_nat a) / inject_Z (Z.of_nat b) * 100 <= 100.
Proof.
  intros Hab Hb.
  assert (Ha0 : 0 <= inject_Z (Z.of_nat a)).
  { change 0 with (inject_Z 0). rewrite <- Zle_Qle. lia. }
  assert (Hb0 : 0 < inject_Z (Z.of_nat b)).
  { change 0 with (inject_Z 0). rewrite <- Zlt_Qlt. lia. }
  assert (Hle : inject_Z (Z.of_nat a) <= inject_Z (Z.of_nat b)).
  { rewrite <- Zle_Qle. lia. }
  assert (H0 : 0 <= inject_Z (Z.of_nat a) / inject_Z (Z.of_nat b)).
  { apply Qle_shift_div_l; [exact Hb0 | lra]. }
  assert (H1 : inject_Z (Z.of_nat a) / inject_Z (Z.of_nat b) <= 1).
  { apply Qle_shift_div_r; [exact Hb0 | lra]. }
  split; lra.
Qed.

Lemma water_intensity_empty (t : ReadingTable) :
  calculate_water_intensity t = [] <-> t = [].
Proof.
  split.
  - intros He. destruct t as [| r t]; [reflexivity |]. exfalso.
    assert (Hin : In (date_asset r)
                     (map (fun w => (w_date w, w_asset_name w))
                          (calculate_water_intensity (r :: t)))).
    { rewrite water_intensity_keys. apply group_keys_In. now left. }
    rewrite He in Hin. exact Hin.
  - intros ->. reflexivity.
Qed.

(** X11. [generate_brsr_report] raises ZeroDivisionError on a table with no
    rows, and draws nothing then.  On any other table it returns a report:
    its period is the argument, its renewable percentage lies between 0 and
    100, its score is the draw of [uniform(95, 100)], the only draw of the
    call. *)
Theorem brsr_report_outcome (R : Ambient) (t : ReadingTable) (period : string)
  (s : rs_state R) :
  (t = [] -> generate_brsr_report R t period s = (Raised ZeroDivisionError, s)) /\
  (t <> [] ->
   exists b,
     generate_brsr_report R t period s = (Returned b, snd (random_sample R s)) /\
     Reporting_Period b = period /\
     0 <= Renewable_Energy_Percentage b /\
     Renewable_Energy_Percentage b <= 100 /\
     Data_Quality_Score b = 95 + (100 - 95) * fst (random_sample R s)).
Proof.
  split.
  - intros ->. reflexivity.
  - intros Hne. unfold generate_brsr_report.
    destruct (calculate_water_intensity t) as [| w ws] eqn:Ew.
    + apply water_intensity_empty in Ew. contradiction.
    + unfold uniform, bind, ret. destruct (random_sample R s) as [u s1].
      eexists. split; [reflexivity |]. cbn [Reporting_Period
        Renewable_Energy_Percentage Data_Quality_Score fst snd].
      split; [reflexivity |].
      pose proof (ratio_percentage
                    (List.length (filter (fun w0 => is_renewable_name (w_asset_name w0)) (w :: ws)))
                    (List.length (w :: ws))
                    (filter_length_le _ _)) as Hr.
      destruct Hr as [H0 H1]; [simpl; lia |].
      repeat split; assumption.
Qed.

(** ** The renewable percentage of a generated table *)

Lemma NoDup_list_prod {A B} (l : list A) (l' : list B) :
  NoDup l -> NoDup l' -> NoDup (list_prod l l').
Proof.
  intros Hl Hl'. induction Hl as [| a l Ha Hl IH]; simpl; [constructor |].
  apply NoDup_app.
  - apply NoDup_map_NoDup_ForallPairs; [| exact Hl'].
    intros x y _ _ [= ->]. reflexivity.
  - exact IH.
  - intros [x y] Hin Hin'. apply in_map_iff in Hin.
    destruct Hin as [z [[= <- <-] _]].
    apply in_prod_iff in Hin'. tauto.
Qed.

(** The (date, asset) pairs of the generated table: every asset of the
    registry on every timestamp of the window. *)
Lemma operational_data_date_assets (R : Ambient) (now : Timestamp)
  (s : rs_state R) :
  map date_asset (fst (_generate_operational_data R now s))
  = flat_map
      (fun a : string * AssetInfo =>
         map (fun ts => (date ts, fst a))
             (date_range (now - timedelta_days 7) now (15 * us_per_minute)))
      ASSETS.
Proof.
  unfold _generate_operational_data.
  apply for_each_concat_map. intros a s1.
  apply for_each_map. intros ts s2. unfold date_asset, reading_date.
  destruct (generate_reading_fixed R (fst a) (snd a) ts s2) as (-> & _ & _ & ->).
  reflexivity.
Qed.

(** The buckets of a table that has every name of [names] on every date of
    a list: as many buckets pass a test on the name as there are dates,
    times the names that pass. *)
Lemma buckets_by_name (pairs : list (Z * string)) (dates : list Z)
  (names : list string) (p : string -> bool) :
  NoDup names ->
  (forall d n, In (d, n) pairs <-> In d dates /\ In n names) ->
  List.length (filter (fun k => p (snd k)) (group_keys pairs))
  = (List.length (group_keys dates) * List.length (filter p names))%nat.
Proof.
  intros Hnames Hpairs. rewrite <- length_prod.
  apply Permutation_length, NoDup_Permutation.
  - apply NoDup_filter, group_keys_NoDup.
  - apply NoDup_list_prod; [apply group_keys_NoDup | now apply NoDup_filter].
  - intros [d n]. rewrite filter_In, group_keys_In, Hpairs, in_prod_iff,
      group_keys_In, filter_In. cbn [snd]. tauto.
Qed.

(** X13. On every table the generator produces, the renewable percentage
    of the report is 75, whatever the draws and the clock: three of the four
    names of the registry hold Solar, Wind or Hydro, and every asset has a
    bucket on every date. *)
Theorem generated_renewable_percentage_is_75 (R : Ambient) (now : Timestamp)
  (s s' : rs_state R) (period : string) :
  exists b,
    fst (generate_brsr_report R (fst (_generate_operational_data R now s))
           period s') = Returned b /\
    Renewable_Energy_Percentage b == 75.
Proof.
  set (t := fst (_generate_operational_data R now s)).
  set (window := date_range (now - timedelta_days 7) now (15 * us_per_minute)).
  assert (Hpairs : forall d n,
             In (d, n) (map date_asset t)
             <-> In d (map date window) /\ In n (map fst ASSETS)).
  { intros d n. unfold t. rewrite operational_data_date_assets. fold window.
    rewrite in_flat_map. split.
    - intros [a [Ha Hin]]. apply in_map_iff in Hin.
      destruct Hin as [ts [[= <- <-] Hts]]. split; now apply in_map.
    - intros [Hd Hn]. apply in_map_iff in Hd, Hn.
      destruct Hd as [ts [<- Hts]]. destruct Hn as [a [<- Ha]].
      exists a. split; [exact Ha |].
      apply in_map_iff. exists ts. now split. }
  assert (Hnames : NoDup (map fst ASSETS)).
  { simpl. repeat constructor; simpl; intuition discriminate. }
  pose proof (buckets_by_name _ _ _ is_renewable_name Hnames Hpairs) as Hren.
  pose proof (buckets_by_name _ _ _ (fun _ => true) Hnames Hpairs) as Hall.
  change (List.length (filter is_renewable_name (map fst ASSETS))) with 3%nat in Hren.
  change (List.length (filter (fun _ => true) (map fst ASSETS))) with 4%nat in Hall.
  rewrite (forallb_filter_id (fun _ => true)) in Hall
    by (apply forallb_forall; reflexivity).
  set (n := List.length (group_keys (map date window))) in *.
  assert (Hn : (0 < n)%nat).
  { assert (Hlen : List.length (map date window) = 673%nat).
    { unfold window. now rewrite date_range_week, !length_map, length_seq. }
    unfold n. destruct (map date window) as [| d l]; [discriminate Hlen |].
    destruct (group_keys (d :: l)) as [| k ks] eqn:E; [| cbn [List.length]; lia].
    exfalso. assert (Hin : In d (group_keys (d :: l)))
      by (apply group_keys_In; now left).
    rewrite E in Hin. exact Hin. }
  rewrite <- water_intensity_keys in Hren, Hall.
  rewrite length_map in Hall.
  assert (Hren' : List.length (filter (fun w => is_renewable_name (w_asset_name w))
                                      (calculate_water_intensity t)) = (n * 3)%nat).
  { rewrite <- Hren.
    rewrite filter_map_swap, length_map. reflexivity. }
  unfold generate_brsr_report.
  destruct (calculate_water_intensity t) as [| w ws] eqn:Ew.
  { cbn [List.length] in Hall. lia. }
  unfold uniform, bind, ret. destruct (random_sample R s') as [u s1].
  eexists. split; [reflexivity |]. cbn [Renewable_Energy_Percentage].
  rewrite Hren', Hall, !Nat2Z.inj_mul, !inject_Z_mult.
  assert (Hq : ~ inject_Z (Z.of_nat n) == 0).
  { change 0 with (inject_Z 0). rewrite inject_Z_injective. lia. }
  change (inject_Z (Z.of_nat 3)) with 3. change (inject_Z (Z.of_nat 4)) with 4.
  field; repeat split; try exact Hq; lra.
Qed.

(** * Properties of the audit metadata and of the audit trail *)

Lemma toy_randint_in_range : randint_in_range toy.
Proof.
  intros n s Hn. unfold toy, toy_tick. cbn [randint fst].
  apply Nat.mod_upper_bound. lia.
Qed.

Lemma choice_In (R : Ambient) (l : list string) (s : rs_state R) :
  randint_in_range R -> l <> [] -> In (fst (choice R "" l s)) l.
Proof.
  intros HR Hl. unfold choice, bind, ret.
  assert (Hlen : (0 < List.length l)%nat).
  { destruct l; [congruence | simpl; lia]. }
  pose proof (HR (List.length l) s Hlen) as Hi.
  destruct (randint R (List.length l) s) as [i s1]. cbn [fst] in *.
  now apply nth_In.
Qed.

(** The columns of one audit record. *)
Lemma generate_audit_record_columns (R : Ambient) (k : nat) (s : rs_state R) :
  randint_in_range R ->
  let a := fst (generate_audit_record R k s) in
  source_system a = "PI_System" /\
  In (audit_asset_name a) (map fst ASSETS) /\
  In (metric_type a) ["emissions"; "water"; "safety"; "energy"] /\
  In (calculation_method a) ["GHG_Protocol"; "CPCB_Standards"; "ISO_14064"].
Proof.
  intros HR. cbv zeta. unfold generate_audit_record, bind, ret.
  repeat (cbv beta;
          match goal with
          | |- context [choice R "" ?l ?s0] =>
              let H := fresh "Hchoice" in
              pose proof (choice_In R l s0 HR) as H;
              destruct (choice R "" l s0) as [? ?]; cbn [fst] in H
          | |- context [choice_weighted R ?l ?p ?s0] =>
              destruct (choice_weighted R l p s0) as [? ?]
          | |- context [fake_uuid4 R ?s0] => destruct (fake_uuid4 R s0) as [? ?]
          | |- context [fake_sha256 R ?s0] => destruct (fake_sha256 R s0) as [? ?]
          | |- context [fake_email R ?s0] => destruct (fake_email R s0) as [? ?]
          | |- context [fake_date_time_this_month R ?s0] =>
              destruct (fake_date_time_this_month R s0) as [? ?]
          end).
  cbn [fst source_system audit_asset_name metric_type calculation_method].
  repeat split;
    match goal with
    | H : ?l <> [] -> In ?x ?l |- In ?x ?l => apply H; discriminate
    end.
Qed.

(** X14. The metadata table the generator produces has exactly 100
    records, whatever the draws; when [randint(0, n)] draws below [n], every
    record has source system PI_System, an asset name of the registry, one
    of the four metric types and one of the three calculation methods. *)
Theorem esg_metadata_records (R : Ambient) (s : rs_state R) :
  randint_in_range R ->
  List.length (fst (_generate_esg_metadata R s)) = 100%nat /\
  Forall (fun a =>
            source_system a = "PI_System" /\
            In (audit_asset_name a) (map fst ASSETS) /\
            In (metric_type a) ["emissions"; "water"; "safety"; "energy"] /\
            In (calculation_method a) ["GHG_Protocol"; "CPCB_Standards"; "ISO_14064"])
         (fst (_generate_esg_metadata R s)).
Proof.
  intros HR. unfold _generate_esg_metadata. split.
  - exact (eq_trans (for_each_length (generate_audit_record R) (seq 0 100) s)
                    (length_seq _ _)).
  - apply for_each_Forall. intros k _ s0.
    exact (generate_audit_record_columns R k s0 HR).
Qed.

Lemma esg_metadata_records_witness :
  List.length (fst (_generate_esg_metadata toy 0%nat)) = 100%nat /\
  Forall (fun a =>
            source_system a = "PI_System" /\
            In (audit_asset_name a) (map fst ASSETS) /\
            In (metric_type a) ["emissions"; "water"; "safety"; "energy"] /\
            In (calculation_method a) ["GHG_Protocol"; "CPCB_Standards"; "ISO_14064"])
         (fst (_generate_esg_metadata toy 0%nat)).
Proof. exact (esg_metadata_records toy 0%nat toy_randint_in_range). Defined.

(** X15. [get_lineage] returns the records of the metadata that carry the
    identifier, and nothing else; the empty table when no record carries it;
    tracing the result again for the same identifier changes nothing, and
    for another identifier gives the empty table. *)
Theorem get_lineage_lookup (metadata : AuditTable) (id : string) :
  (forall a, In a (get_lineage metadata id)
             <-> In a metadata /\ data_point_id a = id) /\
  (get_lineage metadata id = []
   <-> forall a, In a metadata -> data_point_id a <> id) /\
  get_lineage (get_lineage metadata id) id = get_lineage metadata id /\
  (forall id', id' <> id -> get_lineage (get_lineage metadata id) id' = []).
Proof.
  unfold get_lineage. split; [| split; [| split]].
  - intros a. rewrite filter_In, String.eqb_eq. reflexivity.
  - split.
    + intros He a Ha Hid.
      assert (Hin : In a (filter (fun a0 => String.eqb (data_point_id a0) id) metadata)).
      { apply filter_In. split; [exact Ha | now apply String.eqb_eq]. }
      rewrite He in Hin. exact Hin.
    + intros Hno. induction metadata as [| a l IH]; [reflexivity |]. simpl.
      destruct (String.eqb (data_point_id a) id) eqn:E.
      * apply String.eqb_eq in E. exfalso. apply (Hno a); [now left | exact E].
      * apply IH. intros b Hb. apply Hno. now right.
  - induction metadata as [| a l IH]; [reflexivity |]. simpl.
    destruct (String.eqb (data_point_id a) id) eqn:E; [| exact IH].
    simpl. rewrite E. now rewrite IH.
  - intros id' Hne. induction metadata as [| a l IH]; [reflexivity |]. simpl.
    destruct (String.eqb (data_point_id a) id) eqn:E; [| exact IH].
    simpl. apply String.eqb_eq in E.
    destruct (String.eqb (data_point_id a) id') eqn:E'; [| exact IH].
    apply String.eqb_eq in E'. congruence.
Qed.

(** ** The audit packet *)

Lemma count_true_split {A} (f : A -> bool) (l : list A) :
  (count_true (map f l) + List.length (filter (fun a => negb (f a)) l)
   = List.length l)%nat.
Proof.
  unfold count_true. induction l as [| a l IH]; [reflexivity |]. simpl.
  unfold id at 1. destruct (f a); simpl; lia.
Qed.

Lemma unique_In (x : string) (l : list string) : In x (unique l) <-> In x l.
Proof.
  induction l as [| y l IH]; simpl; [reflexivity |].
  rewrite filter_In, IH. split.
  - intros [H | [H _]]; auto.
  - intros [H | H]; [now left |].
    destruct (String.eqb x y) eqn:E.
    + apply String.eqb_eq in E. left. congruence.
    + right. split; [exact H | reflexivity].
Qed.

Lemma unique_NoDup (l : list string) : NoDup (unique l).
Proof.
  induction l as [| y l IH]; simpl; constructor.
  - rewrite filter_In. intros [_ H]. rewrite String.eqb_refl in H. discriminate.
  - now apply NoDup_filter.
Qed.

Lemma insert_by_count_perm (e : string * nat) (l : list (string * nat)) :
  Permutation (insert_by_count e l) (e :: l).
Proof.
  induction l as [| x l IH]; simpl; [reflexivity |].
  destruct (snd x <? snd e)%nat; [reflexivity |].
  rewrite IH. apply perm_swap.
Qed.

Definition count_ge (a b : string * nat) : Prop := (snd b <= snd a)%nat.

Lemma insert_by_count_sorted (e : string * nat) (l : list (string * nat)) :
  StronglySorted count_ge l -> StronglySorted count_ge (insert_by_count e l).
Proof.
  induction 1 as [| x l Hs IH Hall]; simpl.
  - repeat constructor.
  - destruct (snd x <? snd e)%nat eqn:E.
    + apply Nat.ltb_lt in E. constructor; [now constructor |].
      constructor; [unfold count_ge; lia |].
      eapply Forall_impl; [| exact Hall]. unfold count_ge. intros; lia.
    + apply Nat.ltb_ge in E. constructor; [exact IH |].
      eapply Permutation_Forall; [symmetry; apply insert_by_count_perm |].
      constructor; [exact E | exact Hall].
Qed.

Lemma value_counts_fold (c : string -> nat) (vs : list string)
  (acc : list (string * nat)) :
  Permutation (fold_left (fun a v => insert_by_count (v, c v) a) vs acc)
              (map (fun v => (v, c v)) vs ++ acc) /\
  (StronglySorted count_ge acc ->
   StronglySorted count_ge (fold_left (fun a v => insert_by_count (v, c v) a) vs acc)).
Proof.
  revert acc. induction vs as [| v vs IH]; intros acc; simpl.
  - split; [reflexivity | auto].
  - destruct (IH (insert_by_count (v, c v) acc)) as [Hp Hs]. split.
    + rewrite Hp, insert_by_count_perm. symmetry. apply Permutation_middle.
    + intros Hacc. apply Hs. now apply insert_by_count_sorted.
Qed.

Lemma value_counts_perm (l : list string) :
  Permutation (value_counts l) (map (fun v => (v, count_of v l)) (unique l)).
Proof.
  unfold value_counts.
  destruct (value_counts_fold (fun v => count_of v l) (unique l) []) as [Hp _].
  now rewrite app_nil_r in Hp.
Qed.

(** The counts of distinct keys that cover a column add up to its length. *)
Lemma counts_add_up (keys l : list string) :
  NoDup keys -> incl l keys ->
  list_sum (map (fun v => count_of v l) keys) = List.length l.
Proof.
  intros Hnd. induction l as [| x l IH]; intros Hincl.
  - clear Hnd Hincl. induction keys as [| k keys IHk]; [reflexivity | exact IHk].
  - assert (Hx : In x keys) by (apply Hincl; now left).
    assert (Hl : incl l keys) by (intros y Hy; apply Hincl; now right).
    specialize (IH Hl). simpl. rewrite <- IH. clear IH Hincl Hl.
    induction Hnd as [| k keys Hk Hnd IHk]; [contradiction |].
    simpl. unfold count_of at 1 3. simpl.
    destruct (String.eqb k x) eqn:E.
    + apply String.eqb_eq in E. subst k. simpl.
      assert (Hrest : map (fun v => count_of v (x :: l)) keys
                      = map (fun v => count_of v l) keys).
      { apply map_ext_in. intros v Hv. unfold count_of. simpl.
        destruct (String.eqb v x) eqn:E'; [| reflexivity].
        apply String.eqb_eq in E'. subst. contradiction. }
      rewrite Hrest. lia.
    + destruct Hx as [Hx | Hx].
      * subst. rewrite String.eqb_refl in E. discriminate.
      * specialize (IHk Hx). fold (count_of k l). lia.
Qed.

(** X16. In the packet of [generate_audit_packet], the number of data
    points is the number of records and the anomalies are the records that
    are not verified.  The verified percentage is NaN on an empty table;
    otherwise it is finite and between 0 and 100, it is 100 when there is
    no anomaly and 0 when every record is one. *)
Theorem audit_packet_counts (isoformat : Timestamp -> string)
  (metadata : AuditTable) (now : Timestamp) :
  total_data_points (generate_audit_packet isoformat metadata now)
  = List.length metadata /\
  anomalies_detected (generate_audit_packet isoformat metadata now)
  = Z.of_nat (List.length (filter (fun a => negb (auditor_verified a)) metadata)) /\
  (metadata = [] ->
   auditor_verified_percentage (generate_audit_packet isoformat metadata now) = NaN) /\
  (metadata <> [] ->
   exists q,
     auditor_verified_percentage (generate_audit_packet isoformat metadata now)
     = Fin q /\
     0 <= q /\ q <= 100 /\
     (anomalies_detected (generate_audit_packet isoformat metadata now) = 0%Z ->
      q == 100) /\
     (anomalies_detected (generate_audit_packet isoformat metadata now)
      = Z.of_nat (List.length metadata) ->
      q == 0)).
Proof.
  pose proof (count_true_split auditor_verified metadata) as Hsplit.
  unfold generate_audit_packet. cbn [total_data_points anomalies_detected
    auditor_verified_percentage].
  split; [reflexivity |]. split; [lia |]. split.
  - intros ->. reflexivity.
  - intros Hne.
    assert (Hm : bool_mean (map auditor_verified metadata)
                 = Fin (inject_Z (Z.of_nat (count_true (map auditor_verified metadata)))
                        / inject_Z (Z.of_nat (List.length metadata)))).
    { rewrite <- (length_map auditor_verified metadata).
      destruct metadata; [congruence | reflexivity]. }
    rewrite Hm. cbn [fscale].
    assert (Hpos : (0 < List.length metadata)%nat).
    { destruct metadata; [congruence | simpl; lia]. }
    pose proof (ratio_percentage (count_true (map auditor_verified metadata))
                  (List.length metadata)) as Hr.
    destruct Hr as [H0 H1]; [lia | exact Hpos |].
    eexists. split; [reflexivity |]. split; [exact H0 |]. split; [exact H1 |].
    assert (Hq : ~ inject_Z (Z.of_nat (List.length metadata)) == 0).
    { change 0 with (inject_Z 0). rewrite inject_Z_injective. lia. }
    split.
    + intros Hz.
      assert (He : count_true (map auditor_verified metadata) = List.length metadata)
        by lia.
      rewrite He. field. exact Hq.
    + intros Hz.
      assert (He : count_true (map auditor_verified metadata) = 0%nat) by lia.
      rewrite He. change (inject_Z (Z.of_nat 0)) with 0. field. exact Hq.
Qed.

(** X17. The source systems of the packet list every distinct value of the
    column once, with the number of its records, most frequent first, and
    the counts add up to the number of data points; the compliance
    standards are the distinct calculation methods, each once. *)
Theorem audit_packet_summaries (isoformat : Timestamp -> string)
  (metadata : AuditTable) (now : Timestamp) :
  NoDup (map fst (source_systems (generate_audit_packet isoformat metadata now))) /\
  (forall k c,
      In (k, c) (source_systems (generate_audit_packet isoformat metadata now))
      <-> In k (map source_system metadata) /\
          c = List.length (filter (fun a => String.eqb k (source_system a)) metadata)) /\
  StronglySorted count_ge
    (source_systems (generate_audit_packet isoformat metadata now)) /\
  list_sum (map snd (source_systems (generate_audit_packet isoformat metadata now)))
  = total_data_points (generate_audit_packet isoformat metadata now) /\
  NoDup (compliance_standards (generate_audit_packet isoformat metadata now)) /\
  (forall m,
      In m (compliance_standards (generate_audit_packet isoformat metadata now))
      <-> In m (map calculation_method metadata)).
Proof.
  unfold generate_audit_packet. cbn [source_systems compliance_standards
    total_data_points].
  set (col := map source_system metadata).
  pose proof (value_counts_perm col) as Hp.
  assert (Hcount : forall k,
             count_of k col
             = List.length (filter (fun a => String.eqb k (source_system a)) metadata)).
  { intros k. unfold count_of, col. rewrite filter_map_swap, length_map.
    reflexivity. }
  split; [| split; [| split; [| split; [| split]]]].
  - eapply Permutation_NoDup.
    + symmetry. apply Permutation_map. exact Hp.
    + rewrite map_map. cbn [fst]. rewrite map_id. apply unique_NoDup.
  - intros k c. split.
    + intros Hin. eapply Permutation_in in Hin; [| exact Hp].
      apply in_map_iff in Hin. destruct Hin as [v [[= <- <-] Hv]].
      apply (proj1 (unique_In _ _)) in Hv. split; [exact Hv | apply Hcount].
    + intros [Hk ->]. eapply Permutation_in; [symmetry; exact Hp |].
      apply in_map_iff. exists k. rewrite Hcount. split; [reflexivity |].
      now apply unique_In.
  - unfold value_counts.
    apply (value_counts_fold (fun v => count_of v col) (unique col) []).
    constructor.
  - rewrite (Permutation_map snd Hp).
    rewrite map_map. cbn [snd].
    rewrite counts_add_up.
    + unfold col. apply length_map.
    + apply unique_NoDup.
    + intros x Hx. now apply unique_In.
  - apply unique_NoDup.
  - intros m. apply unique_In.
Qed.

Lemma unique_constant (v : string) (l : list string) :
  l <> [] -> Forall (eq v) l -> unique l = [v].
Proof.
  intros Hne Hall. induction Hall as [| x l Hx Hl IH]; [congruence |].
  subst x. simpl. destruct l as [| y l].
  - reflexivity.
  - rewrite IH by discriminate. simpl. now rewrite String.eqb_refl.
Qed.

Lemma count_of_constant (v : string) (l : list string) :
  Forall (eq v) l -> count_of v l = List.length l.
Proof.
  unfold count_of. induction 1 as [| x l Hx Hl IH]; [reflexivity |].
  subst x. simpl. rewrite String.eqb_refl. simpl. now rewrite IH.
Qed.

(** X18. The packet of the metadata the generator produces counts 100 data
    points, all of them of the one source system PI_System, and between 0
    and 100 anomalies; its verified percentage is finite; when
    [randint(0, n)] draws below [n], its compliance standards are among the
    three calculation methods. *)
Theorem generated_audit_packet (isoformat : Timestamp -> string) (R : Ambient)
  (s : rs_state R) (now : Timestamp) :
  randint_in_range R ->
  total_data_points
    (generate_audit_packet isoformat (fst (_generate_esg_metadata R s)) now)
  = 100%nat /\
  source_systems
    (generate_audit_packet isoformat (fst (_generate_esg_metadata R s)) now)
  = [("PI_System", 100%nat)] /\
  (0 <= anomalies_detected
          (generate_audit_packet isoformat (fst (_generate_esg_metadata R s)) now)
   <= 100)%Z /\
  is_finite
    (auditor_verified_percentage
       (generate_audit_packet isoformat (fst (_generate_esg_metadata R s)) now))
  = true /\
  incl (compliance_standards
          (generate_audit_packet isoformat (fst (_generate_esg_metadata R s)) now))
       ["GHG_Protocol"; "CPCB_Standards"; "ISO_14064"].
Proof.
  intros HR.
  assert (Hlen : List.length (fst (_generate_esg_metadata R s)) = 100%nat).
  { exact (eq_trans (for_each_length (generate_audit_record R) (seq 0 100) s)
                    (length_seq _ _)). }
  assert (Hcols : Forall (fun a =>
            source_system a = "PI_System" /\
            In (calculation_method a) ["GHG_Protocol"; "CPCB_Standards"; "ISO_14064"])
         (fst (_generate_esg_metadata R s))).
  { unfold _generate_esg_metadata. apply for_each_Forall. intros k _ s0.
    pose proof (generate_audit_record_columns R k s0 HR) as Hc. cbv zeta in Hc.
    tauto. }
  set (md := fst (_generate_esg_metadata R s)) in *.
  pose proof (count_true_split auditor_verified md) as Hsplit.
  unfold generate_audit_packet. cbn [total_data_points source_systems
    anomalies_detected auditor_verified_percentage compliance_standards].
  split; [exact Hlen |]. split; [| split; [lia | split]].
  - assert (Hall : Forall (eq "PI_System") (map source_system md)).
    { apply Forall_map. eapply Forall_impl; [| exact Hcols].
      intros a [Ha _]. now symmetry. }
    assert (Hne : map source_system md <> []).
    { intros He. apply map_eq_nil in He. rewrite He in Hlen. discriminate. }
    unfold value_counts.
    rewrite (unique_constant _ _ Hne Hall). cbn [fold_left insert_by_count].
    rewrite (count_of_constant _ _ Hall).
    rewrite length_map, Hlen. reflexivity.
  - destruct md as [| a l]; [discriminate Hlen | reflexivity].
  - intros m Hm. apply (proj1 (unique_In _ _)) in Hm. apply in_map_iff in Hm.
    destruct Hm as [a [<- Ha]]. rewrite Forall_forall in Hcols.
    now apply Hcols.
Qed.

Lemma generated_audit_packet_witness :
  source_systems
    (generate_audit_packet (fun _ => "2024-01-08T10:07:30.250000")
       (fst (_generate_esg_metadata toy 0%nat)) now0)
  = [("PI_System", 100%nat)].
Proof.
  exact (proj1 (proj2
           (generated_audit_packet (fun _ => "2024-01-08T10:07:30.250000")
              toy 0%nat now0 toy_randint_in_range))).
Defined.

(** * Properties of what the dashboard pages compute *)

(** X19. The "Data Audit Trail" page flags the first ten records that are
    not verified: the number it flags is the smaller of 10 and the
    [anomalies_detected] of the audit packet shown above it, every flagged
    record is unverified, and it flags none exactly when the packet counts
    none. *)
Theorem anomalies_page_against_packet (isoformat : Timestamp -> string)
  (esg_data : AuditTable) (now : Timestamp) :
  Z.of_nat (List.length (anomalies esg_data))
  = Z.min 10 (anomalies_detected (generate_audit_packet isoformat esg_data now)) /\
  Forall (fun a => auditor_verified a = false) (anomalies esg_data) /\
  (anomalies esg_data = []
   <-> anomalies_detected (generate_audit_packet isoformat esg_data now) = 0%Z).
Proof.
  pose proof (count_true_split auditor_verified esg_data) as Hsplit.
  unfold anomalies, generate_audit_packet. cbn [anomalies_detected].
  set (bad := filter (fun a => negb (auditor_verified a)) esg_data) in *.
  split; [| split].
  - rewrite length_firstn. lia.
  - apply Forall_forall. intros a Ha.
    assert (Ha' : In a bad).
    { rewrite <- (firstn_skipn 10 bad). apply in_or_app. now left. }
    unfold bad in Ha'. apply filter_In in Ha'. destruct Ha' as [_ Ha'].
    now apply Bool.negb_true_iff.
  - split.
    + intros He. destruct bad as [| a l]; [simpl in Hsplit; lia | discriminate He].
    + intros Hz. destruct bad as [| a l]; [reflexivity | simpl in Hsplit; lia].
Qed.

Lemma fdiv_positive_divisor (x y : Q) : 0 < y -> fdiv x y = Fin (x / y).
Proof.
  intros Hy. unfold fdiv, Qis_zero.
  destruct (Qeq_bool y 0) eqn:E; [| reflexivity].
  apply Qeq_bool_iff in E. lra.
Qed.

Lemma Qsum_filter_split {A} (f : A -> Q) (p : A -> bool) (l : list A) :
  Qsum (map f l)
  == Qsum (map f (filter p l)) + Qsum (map f (filter (fun a => negb (p a)) l)).
Proof.
  induction l as [| a l IH]; simpl.
  - rewrite Qsum_nil. lra.
  - destruct (p a); simpl; rewrite !Qsum_cons, IH; lra.
Qed.

(** The thermal rows of a generated table generate. *)
Lemma operational_data_thermal_positive (R : Ambient) (now : Timestamp)
  (s : rs_state R) :
  unit_samples R ->
  Forall (fun r => asset_type r = "thermal" -> 0 < generation_mw r)
         (fst (_generate_operational_data R now s)).
Proof.
  intros HR. apply operational_data_Forall. intros asset ts s0 Hin.
  unfold ASSETS in Hin. simpl in Hin.
  destruct Hin as [<- | [<- | [<- | [<- | []]]]];
    unfold generate_reading; decide_types; run_reading R;
    intros Hth; try discriminate Hth.
  sample_bounds HR. unfold inject_Z.
  apply Qlt_le_trans with (84150 # 100); [reflexivity |].
  apply round2_ge. lra.
Qed.

(** X20. On a generated table the "Emission Intensity" card of the command
    center divides the thermal emissions by the generation of all assets,
    the report by the thermal generation only: both quotients are finite,
    the generation of all assets is at least the thermal one, which is
    positive, and the card never shows more than the report when the
    emissions are not negative. *)
Theorem command_center_intensity_diluted (R : Ambient) (now : Timestamp)
  (s s' : rs_state R) (period : string) :
  unit_samples R -> sine_bounded R ->
  exists k b r,
    command_center_emission_intensity (fst (_generate_operational_data R now s))
    = Fin k /\
    fst (generate_brsr_report R (fst (_generate_operational_data R now s))
           period s') = Returned b /\
    Emission_Intensity_kgCO2_per_MWh b = Fin r /\
    0 < Energy_Generation_Total_MWh b /\
    Energy_Generation_Total_MWh b
    <= Qsum (map generation_mw (fst (_generate_operational_data R now s))) /\
    (0 <= Scope1_Emissions_Total_tCO2e b -> k <= r).
Proof.
  intros HR Hsin.
  pose proof (operational_data_thermal_positive R now s HR) as Hth.
  assert (Hnn : Forall (fun r => 0 <= generation_mw r)
                       (fst (_generate_operational_data R now s))).
  { apply operational_data_Forall. intros asset ts s0 Hin.
    destruct (generate_reading_drawn R asset ts s0 HR Hsin Hin)
      as (g & w & e & Hg0 & _ & _ & _ & _ & _ & Hgen & _).
    rewrite Hgen. apply Qle_trans with (0 # 100); [lra | apply round2_ge; lra]. }
  destruct (operational_data_has_thermal R now s) as [r0 [Hr0 Hr0th]].
  set (t := fst (_generate_operational_data R now s)) in *.
  set (E := Qsum (map s1_emissions_co2_tonnes (calculate_scope1_emissions t None))).
  set (G := Qsum (map s1_generation_mw (calculate_scope1_emissions t None))).
  assert (HG : G == Qsum (map generation_mw (filter is_thermal t))).
  { unfold G, calculate_scope1_emissions. rewrite map_map.
    apply (groupby_sums generation_mw reading_date). }
  assert (HGpos : 0 < G).
  { rewrite HG. apply Qsum_pos.
    - intros He. apply map_eq_nil in He.
      assert (Hin : In r0 (filter is_thermal t)).
      { apply filter_In. split; [exact Hr0 | now apply is_thermal_iff]. }
      rewrite He in Hin. exact Hin.
    - apply Forall_map, Forall_forall. intros r Hr. apply filter_In in Hr.
      destruct Hr as [Hr Hrth]. rewrite Forall_forall in Hth.
      apply Hth; [exact Hr | now apply is_thermal_iff]. }
  assert (Hall : G <= Qsum (map generation_mw t)).
  { rewrite (Qsum_filter_split generation_mw is_thermal t), <- HG.
    assert (H0 : 0 <= Qsum (map generation_mw
                              (filter (fun a => negb (is_thermal a)) t))).
    { apply Qsum_nonneg, Forall_map, Forall_forall. intros r Hr.
      apply filter_In in Hr. rewrite Forall_forall in Hnn. now apply Hnn. }
    lra. }
  assert (Ht : t <> []) by (intros He; rewrite He in Hr0; exact Hr0).
  exists (E * 1000 / Qsum (map generation_mw t)).
  unfold generate_brsr_report.
  destruct (calculate_water_intensity t) as [| w ws] eqn:Ew.
  { apply water_intensity_empty in Ew. contradiction. }
  unfold uniform, bind, ret. destruct (random_sample R s') as [u s1].
  eexists. exists (E * 1000 / G).
  cbn [fst Emission_Intensity_kgCO2_per_MWh Energy_Generation_Total_MWh].
  fold E G.
  split; [| split; [reflexivity | split; [| split; [exact HGpos | split; [exact Hall |]]]]].
  - unfold command_center_emission_intensity. fold E.
    apply fdiv_positive_divisor. lra.
  - now apply fdiv_positive_divisor.
  - cbn [Scope1_Emissions_Total_tCO2e]. fold E. intros HE.
    assert (Hquot : 0 <= E * 1000 / G) by (apply Qle_shift_div_l; lra).
    assert (Hback : E * 1000 / G * G == E * 1000) by (field; lra).
    apply Qle_shift_div_r; [lra |]. nra.
Qed.

Lemma command_center_intensity_diluted_witness :
  exists k b r,
    command_center_emission_intensity (fst (_generate_operational_data toy now0 0%nat))
    = Fin k /\
    fst (generate_brsr_report toy (fst (_generate_operational_data toy now0 0%nat))
           "Q1-2024" 0%nat) = Returned b /\
    Emission_Intensity_kgCO2_per_MWh b = Fin r /\
    0 < Energy_Generation_Total_MWh b /\
    Energy_Generation_Total_MWh b
    <= Qsum (map generation_mw (fst (_generate_operational_data toy now0 0%nat))) /\
    (0 <= Scope1_Emissions_Total_tCO2e b -> k <= r).
Proof.
  exact (command_center_intensity_diluted toy now0 0%nat 0%nat "Q1-2024"
           toy_unit_samples toy_sine_bounded).
Defined.

(** X21. When the thermal emissions and the thermal generation of the
    table are positive and the two sliders are in their ranges (biomass 0 to
    30, renewable addition 0 to 500), the simulation divides nothing by
    zero, reduces the emissions by less than a quarter, and never reports a
    new intensity above the baseline; with both sliders at 0 the new
    intensity is the baseline. *)
Theorem simulation_never_raises_intensity (t : ReadingTable)
  (biomass_perc re_expansion carbon_price : Z) :
  0 < Qsum (map s1_emissions_co2_tonnes (calculate_scope1_emissions t None)) ->
  0 < Qsum (map s1_generation_mw (calculate_scope1_emissions t None)) ->
  (0 <= biomass_perc <= 30)%Z -> (0 <= re_expansion <= 500)%Z ->
  exists bi ni,
    baseline_intensity (run_simulation t biomass_perc re_expansion carbon_price)
    = Fin bi /\
    new_intensity (run_simulation t biomass_perc re_expansion carbon_price)
    = Fin ni /\
    0 <= ni /\ ni <= bi /\
    0 <= emissions_reduced (run_simulation t biomass_perc re_expansion carbon_price) /\
    emissions_reduced (run_simulation t biomass_perc re_expansion carbon_price)
    < 0.25 * baseline_emissions
               (run_simulation t biomass_perc re_expansion carbon_price) /\
    (biomass_perc = 0%Z -> re_expansion = 0%Z -> ni == bi).
Proof.
  unfold run_simulation.
  cbn [baseline_intensity new_intensity emissions_reduced baseline_emissions].
  generalize (Qsum (map s1_emissions_co2_tonnes (calculate_scope1_emissions t None))).
  generalize (Qsum (map s1_generation_mw (calculate_scope1_emissions t None))).
  intros G B HB HG Hp He.
  assert (Hp0 : 0 <= inject_Z biomass_perc).
  { change 0 with (inject_Z 0). rewrite <- Zle_Qle. lia. }
  assert (Hp1 : inject_Z biomass_perc <= 30).
  { change 30 with (inject_Z 30). rewrite <- Zle_Qle. lia. }
  assert (He0 : 0 <= inject_Z re_expansion).
  { change 0 with (inject_Z 0). rewrite <- Zle_Qle. lia. }
  unfold Qdiv at 1 2. change (/ 100) with (1 # 100).
  set (red := B * (inject_Z biomass_perc * (1 # 100)) * 0.7).
  set (n := inject_Z re_expansion * 8760 * 0.25).
  assert (Hred0 : 0 <= red) by (unfold red; nra).
  assert (Hred1 : red <= 0.21 * B) by (unfold red; nra).
  assert (Hn0 : 0 <= n) by (unfold n; lra).
  assert (Hbi : 0 < B / G) by (apply Qlt_shift_div_l; lra).
  assert (Hx : B / (B / G) == G) by (field; split; lra).
  rewrite (fdiv_positive_divisor B G HG).
  cbn [fdivv]. rewrite (fdiv_positive_divisor B (B / G) Hbi).
  cbn [fadd fdivv].
  assert (HD : 0 < B / (B / G) + n) by (rewrite Hx; lra).
  rewrite (fdiv_positive_divisor _ _ HD).
  exists (B / G), ((B - red) / (B / (B / G) + n)).
  split; [reflexivity |]. split; [reflexivity |].
  split; [| split; [| split; [exact Hred0 | split;
    [apply Qle_lt_trans with (0.21 * B); [exact Hred1 | lra] |]]]].
  - apply Qle_shift_div_l; [exact HD | lra].
  - apply Qle_shift_div_r; [exact HD |].
    rewrite Hx.
    assert (Hbg : B / G * (G + n) == B + B / G * n) by (field; lra).
    rewrite Hbg. nra.
  - intros -> ->. unfold red, n. change (inject_Z 0) with 0.
    field. repeat split; lra.
Qed.

Lemma simulation_never_raises_intensity_witness :
  exists bi ni,
    baseline_intensity (run_simulation sample_table 10 200 1200) = Fin bi /\
    new_intensity (run_simulation sample_table 10 200 1200) = Fin ni /\
    0 <= ni /\ ni <= bi /\
    0 <= emissions_reduced (run_simulation sample_table 10 200 1200) /\
    emissions_reduced (run_simulation sample_table 10 200 1200)
    < 0.25 * baseline_emissions (run_simulation sample_table 10 200 1200) /\
    (10%Z = 0%Z -> 200%Z = 0%Z -> ni == bi).
Proof.
  apply (simulation_never_raises_intensity sample_table 10 200 1200).
  - reflexivity.
  - reflexivity.
  - lia.
  - lia.
Defined.

(** ** Asset by asset *)

(** Every asset of the registry has a row in the generated table. *)
Lemma operational_data_has_asset (R : Ambient) (now : Timestamp)
  (s : rs_state R) (a : string * AssetInfo) :
  In a ASSETS ->
  exists r, In r (fst (_generate_operational_data R now s)) /\
            asset_name r = fst a.
Proof.
  intros Ha. unfold _generate_operational_data.
  destruct (for_each_concat_incl
              (fun asset : string * AssetInfo =>
                 for_each (generate_reading R (fst asset) (snd asset))
                   (date_range (now - timedelta_days 7) now (15 * us_per_minute)))
              ASSETS a Ha s) as [s1 Hincl].
  destruct (for_each_In
              (generate_reading R (fst a) (snd a))
              (date_range (now - timedelta_days 7) now (15 * us_per_minute))
              (now - timedelta_days 7)%Z) with (s := s1) as [s2 Hin].
  { rewrite date_range_week. left. simpl. lia. }
  eexists. split; [apply Hincl, Hin |].
  now destruct (generate_reading_fixed R (fst a) (snd a) (now - timedelta_days 7)%Z s2)
    as (-> & _).
Qed.

(** The rows of an asset generate between 0 and 0.825 of its capacity. *)
Lemma operational_data_asset_generation (R : Ambient) (now : Timestamp)
  (s : rs_state R) :
  unit_samples R -> sine_bounded R ->
  Forall (fun r =>
            forall a, In a ASSETS -> asset_name r = fst a ->
              0 <= generation_mw r /\
              generation_mw r <= 0.825 * inject_Z (info_capacity (snd a)))
         (fst (_generate_operational_data R now s)).
Proof.
  intros HR Hsin. apply operational_data_Forall. intros asset ts s0 Hin.
  destruct (generate_reading_drawn R asset ts s0 HR Hsin Hin)
    as (g & w & e & Hg0 & Hg1 & _ & _ & _ & _ & Hgen & _).
  destruct (generate_reading_fixed R (fst asset) (snd asset) ts s0) as (Hname & _).
  rewrite Hgen, Hname. clear Hgen Hname. intros a Ha Heq.
  unfold ASSETS in Hin, Ha. simpl in Hin, Ha.
  destruct Hin as [<- | [<- | [<- | [<- | []]]]];
    destruct Ha as [<- | [<- | [<- | [<- | []]]]];
    try discriminate Heq; cbn [snd info_capacity] in *; unfold inject_Z in *.
  - apply (round2_between 0 108900); lra.
  - apply (round2_between 0 41250); lra.
  - apply (round2_between 0 24750); lra.
  - apply (round2_between 0 19800); lra.
Qed.

Lemma Qsum_bounds (lo hi : Q) (l : list Q) :
  Forall (fun x => lo <= x /\ x <= hi) l ->
  inject_Z (Z.of_nat (List.length l)) * lo <= Qsum l /\
  Qsum l <= inject_Z (Z.of_nat (List.length l)) * hi.
Proof.
  induction 1 as [| x l [Hx0 Hx1] Hl [IH0 IH1]].
  - rewrite Qsum_nil. cbn [List.length Z.of_nat]. change (inject_Z 0) with 0.
    split; lra.
  - rewrite Qsum_cons. cbn [List.length].
    rewrite Nat2Z.inj_succ, <- Z.add_1_r, inject_Z_plus.
    change (inject_Z 1) with 1. split; lra.
Qed.

(** X22. On a generated table the "Capacity Utilization" card of every
    asset of the registry shows a finite percentage between 0 and 82.5: the
    mean generation of the asset over its capacity, which the draws keep at
    0.825 at most. *)
Theorem generated_capacity_utilization (R : Ambient) (now : Timestamp)
  (s : rs_state R) (a : string * AssetInfo) :
  unit_samples R -> sine_bounded R -> In a ASSETS ->
  exists u,
    capacity_utilization (fst (_generate_operational_data R now s)) (fst a)
    = Some (Fin u) /\
    0 <= u /\ u <= 82.5.
Proof.
  intros HR Hsin Ha.
  pose proof (operational_data_asset_generation R now s HR Hsin) as Hgen.
  destruct (operational_data_has_asset R now s a Ha) as [r0 [Hr0 Hname0]].
  set (t := fst (_generate_operational_data R now s)) in *.
  unfold capacity_utilization.
  set (rows := filter (fun r => String.eqb (asset_name r) (fst a)) t).
  assert (Hrows : Forall (fun x => 0 <= x /\
                                   x <= 0.825 * inject_Z (info_capacity (snd a)))
                         (map generation_mw rows)).
  { apply Forall_map, Forall_forall. intros r Hr. unfold rows in Hr.
    apply filter_In in Hr. destruct Hr as [Hr Hn]. apply String.eqb_eq in Hn.
    rewrite Forall_forall in Hgen. now apply (Hgen r Hr a Ha). }
  destruct (Qsum_bounds _ _ _ Hrows) as [Hs0 Hs1]. rewrite length_map in Hs0, Hs1.
  assert (Hlen : 0 < inject_Z (Z.of_nat (List.length rows))).
  { assert (Hin : In r0 rows).
    { unfold rows. apply filter_In. split; [exact Hr0 | now apply String.eqb_eq]. }
    change 0 with (inject_Z 0). rewrite <- Zlt_Qlt.
    destruct rows; [contradiction | simpl; lia]. }
  rewrite (fdiv_positive_divisor _ _ Hlen).
  set (m := Qsum (map generation_mw rows) / inject_Z (Z.of_nat (List.length rows))).
  assert (Hm0 : 0 <= m) by (apply Qle_shift_div_l; [exact Hlen | lra]).
  assert (Hm1 : m <= 0.825 * inject_Z (info_capacity (snd a))).
  { apply Qle_shift_div_r; [exact Hlen | lra]. }
  clearbody m. clear Hs0 Hs1 Hrows Hlen.
  unfold ASSETS in Ha. simpl in Ha.
  destruct Ha as [<- | [<- | [<- | [<- | []]]]];
    cbn [fst snd info_capacity] in *;
    match goal with
    | |- context [find ?f ASSETS] =>
        let v := eval vm_compute in (find f ASSETS) in
        change (find f ASSETS) with v
    end;
    cbv iota; cbn [fst snd info_capacity fdivv];
    (rewrite fdiv_positive_divisor by reflexivity);
    cbn [fscale]; eexists; (split; [reflexivity |]);
    unfold inject_Z in *;
    match goal with
    | |- context [m / ?c] =>
        assert (H0 : 0 <= m / c) by (apply Qle_shift_div_l; [reflexivity | lra]);
        assert (H1 : m / c <= 0.825) by (apply Qle_shift_div_r; [reflexivity | lra])
    end; split; lra.
Qed.

Lemma generated_capacity_utilization_witness :
  exists u,
    capacity_utilization (fst (_generate_operational_data toy now0 0%nat))
      "Karnataka Solar"
    = Some (Fin u) /\
    0 <= u /\ u <= 82.5.
Proof.
  exact (generated_capacity_utilization toy now0 0%nat
           ("Karnataka Solar", mkAssetInfo "solar" 500 "Karnataka")
           toy_unit_samples toy_sine_bounded
           (or_intror (or_introl eq_refl))).
Defined.

(** ** The latest rows *)

(** Two ascending lists of distinct keys with the same keys are equal. *)
Lemma sorted_same_keys {K} `{KeyOrderLaws K} (l1 l2 : list K) :
  StronglySorted key_lt l1 -> StronglySorted key_lt l2 ->
  (forall x, In x l1 <-> In x l2) -> l1 = l2.
Proof.
  intros Hs1. revert l2.
  induction Hs1 as [| a l1 Hs1 IH Ha]; intros l2 Hs2 Hin.
  - destruct l2 as [| b l2]; [reflexivity |].
    exfalso. apply (proj2 (Hin b)). now left.
  - destruct Hs2 as [| b l2 Hs2 Hb].
    + exfalso. apply (proj1 (Hin a)). now left.
    + rewrite Forall_forall in Ha, Hb.
      assert (Hab : a = b).
      { destruct (proj1 (Hin a) (or_introl eq_refl)) as [Heq | Hal2]; [now symmetry |].
        destruct (proj2 (Hin b) (or_introl eq_refl)) as [Heq | Hbl1]; [exact Heq |].
        exfalso. apply (key_lt_irrefl a).
        exact (cmp_lt_trans a b a (Ha b Hbl1) (Hb a Hal2)). }
      subst b. f_equal. apply IH; [exact Hs2 |].
      intros x. split; intros Hx.
      * destruct (proj1 (Hin x) (or_intror Hx)) as [Heq | Hx2]; [| exact Hx2].
        subst x. exfalso. exact (key_lt_irrefl a (Ha a Hx)).
      * destruct (proj2 (Hin x) (or_intror Hx)) as [Heq | Hx1]; [| exact Hx1].
        subst x. exfalso. exact (key_lt_irrefl a (Hb a Hx)).
Qed.

(** The names and the timestamps of the generated table. *)
Lemma operational_data_name_times (R : Ambient) (now : Timestamp)
  (s : rs_state R) :
  map (fun r => (asset_name r, timestamp r))
      (fst (_generate_operational_data R now s))
  = flat_map
      (fun a : string * AssetInfo =>
         map (pair (fst a))
             (date_range (now - timedelta_days 7) now (15 * us_per_minute)))
      ASSETS.
Proof.
  unfold _generate_operational_data.
  apply for_each_concat_map. intros a s1.
  apply for_each_map. intros ts s2.
  destruct (generate_reading_fixed R (fst a) (snd a) ts s2) as (-> & _ & _ & ->).
  reflexivity.
Qed.

Lemma filter_name_block (k n : string) (w : list Timestamp) :
  filter (fun p : string * Timestamp => key_eqb (fst p) k) (map (pair n) w)
  = if key_eqb n k then map (pair n) w else [].
Proof.
  induction w as [| ts w IH]; simpl.
  - now destruct (key_eqb n k).
  - rewrite IH. now destruct (key_eqb n k).
Qed.

(** The window ends at [now]. *)
Lemma date_range_week_last (now : Timestamp) :
  exists init,
    date_range (now - timedelta_days 7) now (15 * us_per_minute) = init ++ [now].
Proof.
  rewrite date_range_week.
  change 673%nat with (S 672). rewrite seq_S, map_app.
  eexists. f_equal. simpl. f_equal.
  unfold timedelta_days, us_per_day, us_per_minute. lia.
Qed.

Lemma last_row_snoc (rows : list Reading) (r : Reading) :
  last_row (rows ++ [r]) = [r].
Proof. unfold last_row. now rewrite rev_app_distr. Qed.

(** The last row of the group of a registry asset is its row at [now]. *)
Lemma generated_last_row (R : Ambient) (now : Timestamp) (s : rs_state R)
  (a : string * AssetInfo) :
  In a ASSETS ->
  exists r,
    last_row (group_rows asset_name (fst (_generate_operational_data R now s)) (fst a))
    = [r] /\
    asset_name r = fst a /\ timestamp r = now.
Proof.
  intros Ha.
  pose proof (operational_data_name_times R now s) as Hcols.
  set (t := fst (_generate_operational_data R now s)) in *.
  set (w := date_range (now - timedelta_days 7) now (15 * us_per_minute)) in *.
  assert (Htimes : map (fun r => (asset_name r, timestamp r))
                       (group_rows asset_name t (fst a))
                   = map (pair (fst a)) w).
  { unfold group_rows.
    rewrite <- (filter_map_swap
                  (fun p : string * Timestamp => key_eqb (fst p) (fst a))
                  (fun r => (asset_name r, timestamp r))).
    rewrite Hcols. unfold ASSETS. cbn [flat_map fst].
    rewrite !filter_app, !filter_name_block, app_nil_r.
    unfold ASSETS in Ha. simpl in Ha.
    destruct Ha as [<- | [<- | [<- | [<- | []]]]]; cbn [fst];
      repeat match goal with
             | |- context [key_eqb ?x ?y] =>
                 let v := eval vm_compute in (key_eqb x y) in
                 change (key_eqb x y) with v
             end;
      cbv iota; rewrite ?app_nil_r; reflexivity. }
  destruct (date_range_week_last now) as [init Hw]. fold w in Hw.
  rewrite Hw, map_app in Htimes. cbn [map] in Htimes.
  apply map_eq_app in Htimes. destruct Htimes as (rows & lastr & Hrows & _ & Hlast).
  destruct lastr as [| r [| r' l']]; try discriminate Hlast.
  injection Hlast as Hn Ht.
  exists r. rewrite Hrows. split; [apply last_row_snoc | auto].
Qed.

(** X23. On a generated table the "Live Asset Performance" table has one
    row per asset of the registry, by ascending asset name, and each row is
    the reading of its asset at [now], the end of the window. *)
Theorem generated_latest_data (R : Ambient) (now : Timestamp) (s : rs_state R) :
  map (fun r => (asset_name r, timestamp r))
      (latest_data (fst (_generate_operational_data R now s)))
  = [ ("Barmer Thermal", now); ("Himachal Hydro", now);
      ("Karnataka Solar", now); ("Maharashtra Wind", now) ].
Proof.
  assert (Hkeys : group_keys (map asset_name (fst (_generate_operational_data R now s)))
                  = ["Barmer Thermal"; "Himachal Hydro";
                     "Karnataka Solar"; "Maharashtra Wind"]).
  { apply sorted_same_keys.
    - apply group_keys_sorted.
    - repeat constructor.
    - intros x. rewrite group_keys_In, in_map_iff. split.
      + intros [r [<- Hr]].
        assert (Hall : Forall (fun r => In (asset_name r) (map fst ASSETS))
                              (fst (_generate_operational_data R now s))).
        { apply operational_data_Forall. intros asset ts s0 Hin.
          destruct (generate_reading_fixed R (fst asset) (snd asset) ts s0)
            as (-> & _).
          now apply in_map. }
        rewrite Forall_forall in Hall. specialize (Hall r Hr).
        simpl in Hall. simpl. tauto.
      + intros Hx.
        assert (Hx' : In x (map fst ASSETS)) by (simpl in *; tauto).
        apply in_map_iff in Hx'. destruct Hx' as [a [<- Ha]].
        destruct (operational_data_has_asset R now s a Ha) as [r [Hr Hn]].
        exists r. auto. }
  unfold latest_data, groupby. rewrite Hkeys. cbn [map flat_map snd].
  rewrite app_nil_r, !map_app.
  destruct (generated_last_row R now s
              ("Barmer Thermal", mkAssetInfo "thermal" 1320 "Rajasthan"))
    as (r1 & H1 & Hn1 & Ht1); [simpl; tauto |].
  destruct (generated_last_row R now s
              ("Himachal Hydro", mkAssetInfo "hydro" 240 "Himachal Pradesh"))
    as (r2 & H2 & Hn2 & Ht2); [simpl; tauto |].
  destruct (generated_last_row R now s
              ("Karnataka Solar", mkAssetInfo "solar" 500 "Karnataka"))
    as (r3 & H3 & Hn3 & Ht3); [simpl; tauto |].
  destruct (generated_last_row R now s
              ("Maharashtra Wind", mkAssetInfo "wind" 300 "Maharashtra"))
    as (r4 & H4 & Hn4 & Ht4); [simpl; tauto |].
  cbn [fst] in *. rewrite H1, H2, H3, H4. cbn [map app].
  rewrite Hn1, Ht1, Hn2, Ht2, Hn3, Ht3, Hn4, Ht4. reflexivity.
Qed.
